(** * centrifuge-go: the client core (client.go)

    A shallow embedding of the connection state machine of [Client]:
    the command-ID counter, the request registry, the connect /
    disconnect / close paths, the server-side subscription bookkeeping
    and the construction of Connect and Subscribe requests.

    Conventions.
    - [uint32] and [uint64] values are [N]; the wrap-around of
      [atomic.AddUint32] is written out with [mod 2^32].
    - Go maps are [gmap]s.  Go iterates a map in an unspecified order; the
      model iterates in the order of [map_to_list].
    - A method [func (c *Client) m(args) ret] becomes a function from the
      arguments and the client to the new client, the list of effects the
      call performed (handlers fired, callbacks invoked, goroutines
      started, transport calls) and the returned value.
    - The outcome of a call into an external collaborator (dialling,
      [transport.Write], the wire codec, user handlers) is an argument of
      the function that makes the call.
    - Where goroutines meet on the request registry, a step relation lets
      them interleave between the critical sections of the source. *)

From stdpp Require Import gmap strings list fin_maps.
From Stdlib Require Import NArith.

Open Scope N_scope.

(** ** Data model *)

(** [protocol.Raw] is a byte slice. *)
Definition Raw : Type := list Byte.byte.

(** Client connection statuses ([const ( DISCONNECTED = iota ... )]). *)
Inductive Status : Type :=
| DISCONNECTED
| CONNECTING
| CONNECTED
| RECONNECTING
| CLOSED.

#[global] Instance Status_eq_dec : EqDecision Status.
Proof. solve_decision. Defined.

(** The library errors that client.go returns or hands to callbacks, and
    the server-sent [*Error] with its code. *)
Inductive error : Type :=
| ErrTimeout
| ErrClientDisconnected
| ErrClientClosed
| ErrDuplicateSubscription
| EOF                                   (* io.EOF *)
| ErrEncode                             (* a failure of paramsEncoder.Encode *)
| ErrDecode                             (* a failure of resultDecoder.Decode *)
| ErrTransport                          (* a failure of newWebsocketTransport *)
| ErrHandler (msg : string)             (* errors.New(...) / a handler's error *)
| ServerError (code : N) (msg : string) (* protocol.Error *).

#[global] Instance error_eq_dec : EqDecision error.
Proof. solve_decision. Defined.

(** [type disconnect struct { Reason string; Reconnect bool }] *)
Record disconnect : Type := mkDisconnect {
  Reason : string;
  Reconnect : bool
}.

(** [type serverSub struct { Offset uint64; Epoch string; Recoverable bool }] *)
Record serverSub : Type := mkServerSub {
  ss_Offset : N;
  ss_Epoch : string;
  ss_Recoverable : bool
}.

(** [type streamPosition struct { Seq, Gen uint32; Offset uint64; Epoch string }] *)
Record streamPosition : Type := mkStreamPosition {
  sp_Seq : N;
  sp_Gen : N;
  sp_Offset : N;
  sp_Epoch : string
}.

(** [protocol.SubscribeRequest], with the fields client.go fills in.  Go's
    zero value of the struct is [emptySubscribeRequest]. *)
Record SubscribeRequest : Type := mkSubscribeRequest {
  sr_Channel : string;
  sr_Token : string;
  sr_Recover : bool;
  sr_Seq : N;
  sr_Gen : N;
  sr_Epoch : string;
  sr_Offset : N
}.

Definition emptySubscribeRequest : SubscribeRequest :=
  mkSubscribeRequest EmptyString EmptyString false 0 0 EmptyString 0.

Definition set_sr_Channel (v : string) (r : SubscribeRequest) : SubscribeRequest :=
  mkSubscribeRequest v (sr_Token r) (sr_Recover r) (sr_Seq r) (sr_Gen r) (sr_Epoch r)
    (sr_Offset r).
Definition set_sr_Token (v : string) (r : SubscribeRequest) : SubscribeRequest :=
  mkSubscribeRequest (sr_Channel r) v (sr_Recover r) (sr_Seq r) (sr_Gen r) (sr_Epoch r)
    (sr_Offset r).
Definition set_sr_Recover (v : bool) (r : SubscribeRequest) : SubscribeRequest :=
  mkSubscribeRequest (sr_Channel r) (sr_Token r) v (sr_Seq r) (sr_Gen r) (sr_Epoch r)
    (sr_Offset r).
Definition set_sr_Seq (v : N) (r : SubscribeRequest) : SubscribeRequest :=
  mkSubscribeRequest (sr_Channel r) (sr_Token r) (sr_Recover r) v (sr_Gen r) (sr_Epoch r)
    (sr_Offset r).
Definition set_sr_Gen (v : N) (r : SubscribeRequest) : SubscribeRequest :=
  mkSubscribeRequest (sr_Channel r) (sr_Token r) (sr_Recover r) (sr_Seq r) v (sr_Epoch r)
    (sr_Offset r).
Definition set_sr_Epoch (v : string) (r : SubscribeRequest) : SubscribeRequest :=
  mkSubscribeRequest (sr_Channel r) (sr_Token r) (sr_Recover r) (sr_Seq r) (sr_Gen r) v
    (sr_Offset r).
Definition set_sr_Offset (v : N) (r : SubscribeRequest) : SubscribeRequest :=
  mkSubscribeRequest (sr_Channel r) (sr_Token r) (sr_Recover r) (sr_Seq r) (sr_Gen r)
    (sr_Epoch r) v.

(** [protocol.ConnectRequest]: [Data] and [Subs] are nil until assigned. *)
Record ConnectRequest : Type := mkConnectRequest {
  cr_Token : string;
  cr_Data : option Raw;
  cr_Subs : option (gmap string SubscribeRequest)
}.

(** [protocol.Publication], reduced to the fields client.go reads. *)
Record Publication : Type := mkPublication {
  pub_Offset : N;
  pub_Data : Raw
}.

(** The method tags of the commands client.go builds. *)
Inductive MethodType : Type :=
| MethodTypeConnect | MethodTypeSubscribe | MethodTypeUnsubscribe
| MethodTypePublish | MethodTypePresence | MethodTypePresenceStats
| MethodTypeHistory | MethodTypePing | MethodTypeSend | MethodTypeRPC
| MethodTypeRefresh | MethodTypeSubRefresh.

(** The request structures handed to [paramsEncoder.Encode]. *)
Inductive Params : Type :=
| PConnect (r : ConnectRequest)
| PSubscribe (r : SubscribeRequest)
| PSend (data : Raw)
| PRPC (method : string) (data : Raw)
| PPublish (channel : string) (data : Raw)
| PHistory (channel : string)
| PPresence (channel : string)
| PPresenceStats (channel : string).

(** [protocol.Command]: [Params] is nil unless it was assigned. *)
Record Command : Type := mkCommand {
  cmd_ID : N;
  cmd_Method : MethodType;
  cmd_Params : option Raw
}.

(** [protocol.Reply]: the server error is nil on success. *)
Record Reply : Type := mkReply {
  reply_ID : N;
  reply_Error : option error;
  reply_Result : Raw
}.

(** [protocol.Reply{}] *)
Definition emptyReply : Reply := mkReply 0 None [].

(** A callback registered in the request registry is a Go closure.  The
    model names the closure by the place that created it; invoking it is
    recorded as an effect. *)
Inductive callback : Type :=
| CbConnect (isReconnect : bool)        (* the closure of sendConnect *)
| CbSubscribe (channel : string)        (* the closure of sendSubscribe *)
| CbRPC                                 (* the closure of NamedRPC *)
| CbPublish | CbHistory | CbPresence | CbPresenceStats
| CbPing | CbRefresh
| CbUser (tag : N)                      (* any other closure *).

#[global] Instance callback_eq_dec : EqDecision callback.
Proof. solve_decision. Defined.

(** [type request struct { cb func(protocol.Reply, error) }]; [cb] may be nil. *)
Record request : Type := mkRequest {
  cb : option callback
}.

(** The transport of one session; the model only needs its identity. *)
Definition transport_t : Type := nat.

(** Modelled from the spec: the [Subscription] type, whose source file is
    not among the sources.  The spec (section 3) gives it a channel name, a
    status in UNSUBSCRIBED, SUBSCRIBING, SUBSCRIBED, SUBSCRIBE_ERROR with
    initial value UNSUBSCRIBED, the last known stream position and the
    recover flag.  client.go itself reads and writes only [recover]. *)
Inductive SubStatus : Type :=
| UNSUBSCRIBED | SUBSCRIBING | SUBSCRIBED | SUBSCRIBE_ERROR.

Record Subscription : Type := mkSubscription {
  sub_channel : string;
  sub_status : SubStatus;
  sub_recover : bool;
  sub_pos : streamPosition
}.

(** Modelled from the spec: [Client.newSubscription], the constructor that
    [NewSubscription] calls (initial status UNSUBSCRIBED, nothing to
    recover). *)
Definition newSubscription (channel : string) : Subscription :=
  mkSubscription channel UNSUBSCRIBED false (mkStreamPosition 0 0 0 EmptyString).

Definition set_sub_recover (r : bool) (s : Subscription) : Subscription :=
  mkSubscription (sub_channel s) (sub_status s) r (sub_pos s).

(** The event hub, as far as client.go consults it: which handlers are
    registered (non-nil). *)
Record EventHub : Type := mkEventHub {
  onConnect : bool;
  onDisconnect : bool;
  onError : bool;
  onRefresh : bool;
  onMessage : bool;
  onServerSubscribe : bool;
  onServerPublish : bool;
  onServerJoin : bool;
  onServerLeave : bool;
  onServerUnsubscribe : bool
}.

(** [newEventHub()]: no handler registered. *)
Definition newEventHub : EventHub :=
  mkEventHub false false false false false false false false false false.

(** [type Client struct]: the fields that carry state.  The two channels
    are modelled by what can be observed of them: [reconnectCh] (buffer of
    size one) holds a pending signal or not, [closeCh] has been closed or
    not. *)
Record Client : Type := mkClient {
  token : string;
  connectData : option Raw;
  transport : option transport_t;
  msgID : N;
  status : Status;
  id : string;
  subs : gmap string Subscription;
  serverSubs : gmap string serverSub;
  requests : gmap N request;
  reconnect : bool;
  reconnectAttempts : nat;
  events : EventHub;
  reconnectCh : bool;
  closeCh : bool
}.

(** Field updates ([c.f = v]). *)
Definition set_token (v : string) (c : Client) : Client :=
  mkClient v (connectData c) (transport c) (msgID c) (status c) (id c) (subs c)
    (serverSubs c) (requests c) (reconnect c) (reconnectAttempts c) (events c)
    (reconnectCh c) (closeCh c).
Definition set_connectData (v : option Raw) (c : Client) : Client :=
  mkClient (token c) v (transport c) (msgID c) (status c) (id c) (subs c)
    (serverSubs c) (requests c) (reconnect c) (reconnectAttempts c) (events c)
    (reconnectCh c) (closeCh c).
Definition set_transport (v : option transport_t) (c : Client) : Client :=
  mkClient (token c) (connectData c) v (msgID c) (status c) (id c) (subs c)
    (serverSubs c) (requests c) (reconnect c) (reconnectAttempts c) (events c)
    (reconnectCh c) (closeCh c).
Definition set_msgID (v : N) (c : Client) : Client :=
  mkClient (token c) (connectData c) (transport c) v (status c) (id c) (subs c)
    (serverSubs c) (requests c) (reconnect c) (reconnectAttempts c) (events c)
    (reconnectCh c) (closeCh c).
Definition set_status (v : Status) (c : Client) : Client :=
  mkClient (token c) (connectData c) (transport c) (msgID c) v (id c) (subs c)
    (serverSubs c) (requests c) (reconnect c) (reconnectAttempts c) (events c)
    (reconnectCh c) (closeCh c).
Definition set_id (v : string) (c : Client) : Client :=
  mkClient (token c) (connectData c) (transport c) (msgID c) (status c) v (subs c)
    (serverSubs c) (requests c) (reconnect c) (reconnectAttempts c) (events c)
    (reconnectCh c) (closeCh c).
Definition set_subs (v : gmap string Subscription) (c : Client) : Client :=
  mkClient (token c) (connectData c) (transport c) (msgID c) (status c) (id c) v
    (serverSubs c) (requests c) (reconnect c) (reconnectAttempts c) (events c)
    (reconnectCh c) (closeCh c).
Definition set_serverSubs (v : gmap string serverSub) (c : Client) : Client :=
  mkClient (token c) (connectData c) (transport c) (msgID c) (status c) (id c) (subs c)
    v (requests c) (reconnect c) (reconnectAttempts c) (events c)
    (reconnectCh c) (closeCh c).
Definition set_requests (v : gmap N request) (c : Client) : Client :=
  mkClient (token c) (connectData c) (transport c) (msgID c) (status c) (id c) (subs c)
    (serverSubs c) v (reconnect c) (reconnectAttempts c) (events c)
    (reconnectCh c) (closeCh c).
Definition set_reconnect (v : bool) (c : Client) : Client :=
  mkClient (token c) (connectData c) (transport c) (msgID c) (status c) (id c) (subs c)
    (serverSubs c) (requests c) v (reconnectAttempts c) (events c)
    (reconnectCh c) (closeCh c).
Definition set_reconnectAttempts (v : nat) (c : Client) : Client :=
  mkClient (token c) (connectData c) (transport c) (msgID c) (status c) (id c) (subs c)
    (serverSubs c) (requests c) (reconnect c) v (events c)
    (reconnectCh c) (closeCh c).
Definition set_reconnectCh (v : bool) (c : Client) : Client :=
  mkClient (token c) (connectData c) (transport c) (msgID c) (status c) (id c) (subs c)
    (serverSubs c) (requests c) (reconnect c) (reconnectAttempts c) (events c)
    v (closeCh c).
Definition set_closeCh (v : bool) (c : Client) : Client :=
  mkClient (token c) (connectData c) (transport c) (msgID c) (status c) (id c) (subs c)
    (serverSubs c) (requests c) (reconnect c) (reconnectAttempts c) (events c)
    (reconnectCh c) v.

(** ** Effects *)

(** Goroutines started with [go]. *)
Inductive task : Type :=
| GoHandleDisconnect (d : option disconnect)  (* go c.handleDisconnect(d) *)
| GoReader (t : transport_t)                  (* go c.reader(t, closeCh) *)
| GoRequestTimer (uid : N)                    (* the goroutine of sendAsync *)
| GoRefreshTimer (ttl : N)                    (* the refresh timer of a connect reply *)
| GoPeriodicPing.                             (* go c.periodicPing(closeCh) *)

(** What a call does besides updating the client. *)
Inductive effect : Type :=
| Invoke (uid : N) (k : callback) (r : Reply) (err : option error)
    (* req.cb(r, err) for the registry entry stored under uid *)
| Fn (k : callback) (err : option error)
    (* the caller's fn invoked directly, outside the registry *)
| FireOnConnect (clientID : string)
| FireOnDisconnect (reason : string) (reconnect : bool)
| FireOnError (e : error)
| FireOnServerSubscribe (channel : string) (resubscribed : bool)
| FireOnServerPublish (channel : string) (pub : Publication)
| FireOnServerJoin (channel : string)
| FireOnServerLeave (channel : string)
| FireOnServerUnsubscribe (channel : string)
| FireOnMessage (data : Raw)
| TriggerOnUnsubscribe (channel : string)     (* s.triggerOnUnsubscribe(true) *)
| SubHandlePublication (channel : string) (pub : Publication)
| SubHandleUnsub (channel : string)           (* sub.handleUnsub(m) *)
| SubHandleJoin (channel : string)            (* sub.handleJoin(m.Info) *)
| SubHandleLeave (channel : string)           (* sub.handleLeave(m.Info) *)
| Resubscribe (channel : string)              (* sub.resubscribe(true) *)
| TransportClose (t : transport_t)            (* t.Close() *)
| TransportWrite (t : transport_t) (cmd : Command)
| ReconnectWaitCB                             (* reconnectWaitCB() *)
| CloseCloseCh                                (* close(c.closeCh) *)
| Go (t : task)
| Panic (msg : string).

(** How often the trace [effs] invokes the registry callback of command
    [uid]. *)
Definition is_invoke (uid : N) (e : effect) : bool :=
  match e with
  | Invoke uid' _ _ _ => bool_decide (uid' = uid)
  | _ => false
  end.

Definition invocations (uid : N) (effs : list effect) : nat :=
  length (List.filter (is_invoke uid) effs).

(** ** The command-ID counter *)

Definition uint32_modulus : N := 2 ^ 32.

(** [func (c *Client) nextMsgID() uint32 { return atomic.AddUint32(&c.msgID, 1) }]
    The new value of the counter is returned. *)
Definition nextMsgID (c : Client) : N * Client :=
  let v := (msgID c + 1) mod uint32_modulus in
  (v, set_msgID v c).

(** [n] successive allocations: the IDs handed out, oldest first. *)
Fixpoint allocate (n : nat) (c : Client) : list N * Client :=
  match n with
  | O => ([], c)
  | S n' =>
      let '(v, c1) := nextMsgID c in
      let '(vs, c2) := allocate n' c1 in
      (v :: vs, c2)
  end.

(** ** The request registry *)

(** [c.requests[id] = request{cb}] *)
Definition addRequest (uid : N) (k : option callback) (c : Client) : Client :=
  set_requests (<[uid := mkRequest k]> (requests c)) c.

(** [delete(c.requests, id)] *)
Definition removeRequest (uid : N) (c : Client) : Client :=
  set_requests (delete uid (requests c)) c.

(** [func (c *Client) send(cmd *protocol.Command) error].  [wr] is the
    outcome of [transport.Write]: [true] when it returns nil. *)
Definition send (wr : bool) (cmd : Command) (c : Client) : list effect * option error :=
  match transport c with
  | None => ([], Some ErrClientDisconnected)
  | Some t =>
      if wr then ([TransportWrite t cmd], None)
      else ([TransportWrite t cmd;
             Go (GoHandleDisconnect (Some (mkDisconnect "write error" true)))],
            Some EOF)
  end.

(** [func (c *Client) sendAsync(cmd, cb) error]: the request is registered
    first; the goroutine that waits for the read timeout or for [closeCh]
    is started only when the write went through. *)
Definition sendAsync (wr : bool) (cmd : Command) (k : option callback) (c : Client)
  : Client * list effect * option error :=
  let c1 := addRequest (cmd_ID cmd) k c in
  match send wr cmd c1 with
  | (effs, Some e) => (c1, effs, Some e)
  | (effs, None) => (c1, effs ++ [Go (GoRequestTimer (cmd_ID cmd))], None)
  end.

(** [req.cb(protocol.Reply{}, why)] in the goroutine of [sendAsync]: the
    callback is called without a nil check. *)
Definition timerEffects (why : error) (uid : N) (req : request) : list effect :=
  match cb req with
  | Some k => [Invoke uid k emptyReply (Some why)]
  | None => [Panic "nil func call"]
  end.

(** The goroutine of [sendAsync], once its [select] has fired: [why] is
    [ErrTimeout] for the [time.After] case and [ErrClientClosed] for the
    [closeCh] case.  The deferred [removeRequest] runs in every case. *)
Definition requestTimer (why : error) (uid : N) (c : Client) : Client * list effect :=
  match requests c !! uid with
  | None => (removeRequest uid c, [])
  | Some req => (removeRequest uid c, timerEffects why uid req)
  end.

(** ** Construction *)

(** [func New(u string, config Config) *Client].  A URL that does not start
    with "ws" makes [New] panic ([None]).  The token is not taken from the
    configuration; every map starts empty. *)
Definition New (u : string) : option Client :=
  if String.prefix "ws" u then
    Some (mkClient EmptyString None None 0 DISCONNECTED EmptyString ∅ ∅ ∅
            true O newEventHub false false)
  else None.

(** [func (c *Client) SetToken(token string)] *)
Definition SetToken (tok : string) (c : Client) : Client := set_token tok c.

(** [func (c *Client) SetConnectData(data protocol.Raw)] *)
Definition SetConnectData (data : option Raw) (c : Client) : Client :=
  set_connectData data c.

(** ** Errors and pushes *)

(** [func (c *Client) handleError(err error)] *)
Definition handleError (e : error) (c : Client) : list effect :=
  if onError (events c) then [FireOnError e] else [].

(** A decoded [protocol.Push]: the push type, the channel and the outcome
    of decoding the body ([None], [false]: the body does not decode). *)
Inductive Push : Type :=
| PushMessage (m : option Raw)
| PushUnsub (channel : string) (decoded : bool)
| PushPublication (channel : string) (m : option Publication)
| PushJoin (channel : string) (decoded : bool)
| PushLeave (channel : string) (decoded : bool)
| PushOther.

(** [func (c *Client) handleMessage(msg protocol.Message) error] *)
Definition handleMessage (data : Raw) (c : Client) : list effect :=
  if onMessage (events c) then [FireOnMessage data] else [].

(** [func (c *Client) handleServerPublication(channel, pub) error].  The
    channel is looked up twice: before the handler runs, and again under
    the write lock before [serverSub.Offset = pub.Offset]. *)
Definition handleServerPublication (channel : string) (pub : Publication) (c : Client)
  : Client * list effect :=
  match serverSubs c !! channel with
  | None => (c, [])
  | Some _ =>
      let effs :=
        if onServerPublish (events c) then [FireOnServerPublish channel pub] else [] in
      match serverSubs c !! channel with
      | None => (c, effs)
      | Some ss =>
          (set_serverSubs
             (<[channel := mkServerSub (pub_Offset pub) (ss_Epoch ss) (ss_Recoverable ss)]>
                (serverSubs c)) c,
           effs)
      end
  end.

(** [handleServerJoin], [handleServerLeave], [handleServerUnsub]: a handler
    call when the channel is a server-side subscription. *)
Definition handleServerJoin (channel : string) (c : Client) : list effect :=
  match serverSubs c !! channel with
  | None => []
  | Some _ => if onServerJoin (events c) then [FireOnServerJoin channel] else []
  end.

Definition handleServerLeave (channel : string) (c : Client) : list effect :=
  match serverSubs c !! channel with
  | None => []
  | Some _ => if onServerLeave (events c) then [FireOnServerLeave channel] else []
  end.

Definition handleServerUnsub (channel : string) (c : Client) : list effect :=
  match serverSubs c !! channel with
  | None => []
  | Some _ =>
      if onServerUnsubscribe (events c) then [FireOnServerUnsubscribe channel] else []
  end.

(** [func (c *Client) handlePush(msg protocol.Push) error]: a push goes to
    the client-side Subscription of its channel when there is one, and to
    the server-side handlers otherwise.  A Message, Unsub or Publication
    body that does not decode is an error; a Join or Leave body that does
    not decode is dropped. *)
Definition handlePush (msg : Push) (c : Client) : Client * list effect * option error :=
  match msg with
  | PushMessage None => (c, [], Some ErrDecode)
  | PushMessage (Some data) => (c, handleMessage data c, None)
  | PushUnsub _ false => (c, [], Some ErrDecode)
  | PushUnsub channel true =>
      match subs c !! channel with
      | None => (c, handleServerUnsub channel c, None)
      | Some _ => (c, [SubHandleUnsub channel], None)
      end
  | PushPublication _ None => (c, [], Some ErrDecode)
  | PushPublication channel (Some m) =>
      match subs c !! channel with
      | None => let '(c1, effs) := handleServerPublication channel m c in (c1, effs, None)
      | Some _ => (c, [SubHandlePublication channel m], None)
      end
  | PushJoin _ false => (c, [], None)
  | PushJoin channel true =>
      match subs c !! channel with
      | None => (c, handleServerJoin channel c, None)
      | Some _ => (c, [SubHandleJoin channel], None)
      end
  | PushLeave _ false => (c, [], None)
  | PushLeave channel true =>
      match subs c !! channel with
      | None => (c, handleServerLeave channel c, None)
      | Some _ => (c, [SubHandleLeave channel], None)
      end
  | PushOther => (c, [], None)
  end.

(** The reply branch of [handle] after the lookup: the callback, when the
    entry was found and is not nil, gets [(reply, nil)]. *)
Definition replyEffects (reply : Reply) (found : option request) : list effect :=
  match found with
  | Some req =>
      match cb req with
      | Some k => [Invoke (reply_ID reply) k reply None]
      | None => []
      end
  | None => []
  end.

(** [func (c *Client) handle(reply *protocol.Reply) error].  A reply with a
    positive ID resolves the registry entry of that ID and removes it.
    Otherwise the frame is a push; [push] is the outcome of
    [pushDecoder.Decode(reply.Result)]. *)
Definition handle (reply : Reply) (push : option Push) (c : Client)
  : Client * list effect * option error :=
  if bool_decide (0 < reply_ID reply) then
    let found := requests c !! reply_ID reply in
    (removeRequest (reply_ID reply) c, replyEffects reply found, None)
  else
    match push with
    | None => (c, handleError ErrDecode c, Some ErrDecode)
    | Some msg =>
        let '(c1, effs, err) := handlePush msg c in
        match err with
        | Some e => (c1, effs ++ handleError e c1, None)
        | None => (c1, effs, None)
        end
    end.

(** ** Disconnect and close *)

(** The callback of one drained entry, called with
    [(protocol.Reply{}, ErrClientDisconnected)]; a nil callback is skipped. *)
Definition drainOne (x : N * request) : option effect :=
  let '(uid, req) := x in
  (fun k => Invoke uid k emptyReply (Some ErrClientDisconnected)) <$> cb req.

(** The loop of [handleDisconnect] over the drained registry. *)
Definition drainEffects (reqs : gmap N request) : list effect :=
  omap drainOne (map_to_list reqs).

(** [c.transport.Close(); c.transport = nil], when there is a transport. *)
Definition closeTransport (c : Client) : list effect :=
  match transport c with
  | Some t => [TransportClose t]
  | None => []
  end.

(** The critical section of [handleDisconnect] once the status check has
    passed: the registry is emptied, the transport dropped, the reconnect
    flag and the status set. *)
Definition disconnectLocked (d : disconnect) (c : Client) : Client :=
  let c1 := set_requests ∅ c in
  let c2 := set_transport None c1 in
  let c3 := set_reconnect (Reconnect d) c2 in
  set_status (if Reconnect d then RECONNECTING else DISCONNECTED) c3.

(** [s.recover = d.Reconnect] for the subscriptions of the snapshot. *)
Definition setRecover (r : bool) (unsubs : list (string * Subscription))
    (m : gmap string Subscription) : gmap string Subscription :=
  foldr (fun '(ch, _) m => alter (set_sub_recover r) ch m) m unsubs.

(** The rest of [handleDisconnect], after [c.mutex.Unlock()]: the drained
    callbacks, the subscriptions of the snapshot, the OnDisconnect handler
    and the signal to the reconnect routine. *)
Definition disconnectCalls (d : disconnect) (reqs : gmap N request)
    (unsubs : list (string * Subscription)) (needDisconnectEvent : bool) (c : Client)
  : Client * list effect :=
  let c1 := set_subs (setRecover (Reconnect d) unsubs (subs c)) c in
  let eventEffs :=
    if onDisconnect (events c) && needDisconnectEvent
    then [FireOnDisconnect (Reason d) (Reconnect d)] else [] in
  let c2 := if Reconnect d then set_reconnectCh true c1 else c1 in
  (c2,
   drainEffects reqs
     ++ ((fun '(ch, _) => TriggerOnUnsubscribe ch) <$> unsubs)
     ++ eventEffs).

(** [func (c *Client) handleDisconnect(d *disconnect)] *)
Definition handleDisconnect (d : option disconnect) (c : Client) : Client * list effect :=
  let d := default (mkDisconnect "connection closed" true) d in
  if bool_decide (status c = DISCONNECTED \/ status c = CLOSED) then (c, [])
  else
    let reqs := requests c in
    let unsubs := map_to_list (subs c) in
    let needDisconnectEvent :=
      bool_decide (status c = CONNECTING \/ status c = CONNECTED) in
    let '(c1, effs) :=
      disconnectCalls d reqs unsubs needDisconnectEvent (disconnectLocked d c) in
    (c1, closeTransport c ++ effs).

(** [func (c *Client) disconnect(reconnect bool) error]: the reconnect flag
    is stored before [handleDisconnect] looks at the status. *)
Definition disconnect_ (reconnect : bool) (c : Client) : Client * list effect * option error :=
  let c1 := set_reconnect reconnect c in
  let '(c2, effs) := handleDisconnect (Some (mkDisconnect "clean disconnect" reconnect)) c1 in
  (c2, effs, None).

(** [func (c *Client) Disconnect() error] *)
Definition Disconnect (c : Client) : Client * list effect * option error :=
  disconnect_ false c.

(** [func (c *Client) Close() error].  [close(c.closeCh)] panics when the
    channel is closed already; the call then does not return, and the
    trace ends with the panic. *)
Definition Close (c : Client) : Client * list effect * option error :=
  let '(c1, effs, err) := Disconnect c in
  if bool_decide (status c1 = CLOSED) then (c1, effs, None)
  else if closeCh c1 then (c1, effs ++ [Panic "close of closed channel"], None)
  else (set_status CLOSED (set_closeCh true c1), effs ++ [CloseCloseCh], err).

(** ** Subscriptions *)

(** [Client.NewSubscription(channel)] returns the new Subscription or the
    error [ErrDuplicateSubscription]. *)
Definition NewSubscription (channel : string) (c : Client)
  : Client * (error + Subscription) :=
  match subs c !! channel with
  | Some _ => (c, inl ErrDuplicateSubscription)
  | None =>
      let sub := newSubscription channel in
      (set_subs (<[channel := sub]> (subs c)) c, inr sub)
  end.

(** ** Building requests *)

(** The request of [sendSubscribe], before encoding:
[[
    params := &protocol.SubscribeRequest{Channel: channel}
    if recover {
        params.Recover = true
        if streamPos.Seq > 0 || streamPos.Gen > 0 {
            params.Seq = streamPos.Seq
            params.Gen = streamPos.Gen
        } else if streamPos.Offset > 0 {
            params.Offset = streamPos.Offset
        }
        params.Epoch = streamPos.Epoch
    }
    if token is not empty { params.Token = token }
]] *)
Definition subscribeParams (channel : string) (recover : bool)
    (streamPos : streamPosition) (tok : string) : SubscribeRequest :=
  let params := set_sr_Channel channel emptySubscribeRequest in
  let params :=
    if recover then
      let params := set_sr_Recover true params in
      let params :=
        if bool_decide (0 < sp_Seq streamPos) || bool_decide (0 < sp_Gen streamPos) then
          set_sr_Gen (sp_Gen streamPos) (set_sr_Seq (sp_Seq streamPos) params)
        else if bool_decide (0 < sp_Offset streamPos) then
          set_sr_Offset (sp_Offset streamPos) params
        else params in
      set_sr_Epoch (sp_Epoch streamPos) params
    else params in
  if bool_decide (tok <> EmptyString) then set_sr_Token tok params else params.

(** The recovery request that [sendConnect] builds for one server-side
    subscription. *)
Definition recoverRequest (s : serverSub) : SubscribeRequest :=
  set_sr_Offset (ss_Offset s)
    (set_sr_Epoch (ss_Epoch s) (set_sr_Recover true emptySubscribeRequest)).

(** The loop of [sendConnect] over [c.serverSubs]: subscriptions that are not
    recoverable are skipped. *)
Definition recoverSubs (ss : gmap string serverSub) : gmap string SubscribeRequest :=
  map_fold
    (fun channel s acc =>
       if ss_Recoverable s then <[channel := recoverRequest s]> acc else acc)
    ∅ ss.

(** The [protocol.ConnectRequest] of [sendConnect]; [None] when the guard
    [c.token] not empty or [c.connectData != nil] fails and the command is sent
    without params. *)
Definition connectParams (isReconnect : bool) (c : Client) : option ConnectRequest :=
  if negb (bool_decide (token c = EmptyString)) || bool_decide (is_Some (connectData c)) then
    Some (mkConnectRequest
            (token c)
            (connectData c)
            (if isReconnect && bool_decide (0 < size (serverSubs c))%nat
             then Some (recoverSubs (serverSubs c)) else None))
  else None.

(** [protocol.SubscribeResult] and [protocol.ConnectResult], as read by the
    connect path. *)
Record SubscribeResult : Type := mkSubscribeResult {
  sres_Recovered : bool;
  sres_Publications : list Publication;
  sres_Offset : N;
  sres_Epoch : string;
  sres_Recoverable : bool
}.

Record ConnectResult : Type := mkConnectResult {
  res_Client : string;
  res_Expires : bool;
  res_TTL : N;
  res_Subs : gmap string SubscribeResult
}.

(** [func isTokenExpiredError(err error) bool] *)
Definition isTokenExpiredError (e : error) : bool :=
  match e with
  | ServerError code _ => bool_decide (code = 109)
  | _ => false
  end.

(** [func (c *Client) refreshToken() error]; [refresh] is what the
    registered handler returns. *)
Definition refreshToken (refresh : error + string) (c : Client) : Client * option error :=
  if onRefresh (events c) then
    match refresh with
    | inl e => (c, Some e)
    | inr tok => (set_token tok c, None)
    end
  else (c, Some (ErrHandler "RefreshHandler must be set to handle expired token")).

(** [func (c *Client) resubscribe() error].  [sub.resubscribe] belongs to
    the Subscription code; the model records each call and takes its
    result from [resub].  The loop stops at the first error. *)
Fixpoint resubscribeAll (resub : string -> option error)
    (l : list (string * Subscription)) : list effect * option error :=
  match l with
  | [] => ([], None)
  | (ch, _) :: l' =>
      match resub ch with
      | Some e => ([Resubscribe ch], Some e)
      | None =>
          let '(effs, err) := resubscribeAll resub l' in
          (Resubscribe ch :: effs, err)
      end
  end.

Definition resubscribe (resub : string -> option error) (c : Client)
  : list effect * option error :=
  resubscribeAll resub (map_to_list (subs c)).

(** The handler calls of the connect reply, per channel of [res.Subs]. *)
Definition serverSubscribeEffects (isReconnect : bool) (c : Client)
    (ss : gmap string SubscribeResult) : list effect :=
  mjoin
    ((fun '(channel, subRes) =>
        (if onServerSubscribe (events c)
         then [FireOnServerSubscribe channel isReconnect] else [])
        ++ (if onServerPublish (events c)
            then FireOnServerPublish channel <$> sres_Publications subRes else []))
       <$> map_to_list ss).

(** [newServerSubs] of the connect reply. *)
Definition newServerSubs (ss : gmap string SubscribeResult) : gmap string serverSub :=
  (fun subRes =>
     mkServerSub (sres_Offset subRes) (sres_Epoch subRes) (sres_Recoverable subRes))
    <$> ss.

Definition connecting (c : Client) : bool :=
  bool_decide (status c = CONNECTING \/ status c = RECONNECTING).

(** The closure that [connectFromScratch] passes to [sendConnect], called
    as [fn(res, err)]: [arg] is [inl err] or [inr res].  [reconnectWaitCB]
    is deferred and runs on every path. *)
Definition connectReply (isReconnect : bool) (arg : error + ConnectResult)
    (refresh : error + string) (resub : string -> option error) (c : Client)
  : Client * list effect :=
  if negb (connecting c) then (c, [ReconnectWaitCB])
  else
    match arg with
    | inl e =>
        let connectError :=
          Go (GoHandleDisconnect (Some (mkDisconnect "connect error" true))) in
        if isTokenExpiredError e then
          let '(c1, _) := refreshToken refresh c in
          if negb (connecting c1) then (c1, [ReconnectWaitCB])
          else (c1, [connectError; ReconnectWaitCB])
        else (c, [connectError; ReconnectWaitCB])
    | inr res =>
        let c1 := set_id (res_Client res) c in
        let prevStatus := status c1 in
        let c2 := set_status CONNECTED c1 in
        let timerEffs :=
          if res_Expires res then [Go (GoRefreshTimer (res_TTL res))] else [] in
        let connectEffs :=
          if onConnect (events c2) && negb (bool_decide (prevStatus = CONNECTED))
          then [FireOnConnect (id c2)] else [] in
        let subEffs := serverSubscribeEffects isReconnect c2 (res_Subs res) in
        let c3 := set_serverSubs (newServerSubs (res_Subs res)) c2 in
        if negb (bool_decide (status c3 = CONNECTED))
        then (c3, timerEffs ++ connectEffs ++ subEffs ++ [ReconnectWaitCB])
        else
          match resubscribe resub c3 with
          | (resubEffs, Some _) =>
              (c3,
               timerEffs ++ connectEffs ++ subEffs ++ resubEffs
                 ++ [Go (GoHandleDisconnect (Some (mkDisconnect "subscribe error" true)));
                     ReconnectWaitCB])
          | (resubEffs, None) =>
              (set_reconnectAttempts O c3,
               timerEffs ++ connectEffs ++ subEffs ++ resubEffs
                 ++ [Go GoPeriodicPing; ReconnectWaitCB])
          end
    end.

(** The wrapper closure of [sendConnect] around [fn]: an error of the
    registry, then the server error of the reply, then a decoding failure
    ([decoded] is the outcome of [resultDecoder.Decode]) reach [fn] as
    [err]. *)
Definition connectCallback (reply : Reply) (err : option error)
    (decoded : error + ConnectResult) : error + ConnectResult :=
  match err with
  | Some e => inl e
  | None =>
      match reply_Error reply with
      | Some e => inl e
      | None => decoded
      end
  end.

(** ** Sending commands *)

Section Commands.

(** [c.paramsEncoder.Encode]: the wire codec is an external collaborator. *)
Variable paramsEncoder : Params -> error + Raw.

(** [func (c *Client) sendSubscribe(channel, recover, streamPos, token, fn) error] *)
Definition sendSubscribe (wr : bool) (channel : string) (recover : bool)
    (streamPos : streamPosition) (tok : string) (c : Client)
  : Client * list effect * option error :=
  match paramsEncoder (PSubscribe (subscribeParams channel recover streamPos tok)) with
  | inl e => (c, [], Some e)
  | inr data =>
      let '(uid, c1) := nextMsgID c in
      sendAsync wr (mkCommand uid MethodTypeSubscribe (Some data))
        (Some (CbSubscribe channel)) c1
  end.

(** [func (c *Client) sendConnect(isReconnect bool, fn) error]: the ID is
    allocated before the params are built. *)
Definition sendConnect (wr : bool) (isReconnect : bool) (c : Client)
  : Client * list effect * option error :=
  let '(uid, c1) := nextMsgID c in
  match connectParams isReconnect c1 with
  | Some params =>
      match paramsEncoder (PConnect params) with
      | inl e => (c1, [], Some e)
      | inr data =>
          sendAsync wr (mkCommand uid MethodTypeConnect (Some data))
            (Some (CbConnect isReconnect)) c1
      end
  | None =>
      sendAsync wr (mkCommand uid MethodTypeConnect None)
        (Some (CbConnect isReconnect)) c1
  end.

(** [func (c *Client) connectFromScratch(isReconnect bool, reconnectWaitCB func()) error],
    up to the point where the Connect command is on the wire; the reply
    is handled by [connectReply].  [dial] is the outcome of
    [newWebsocketTransport]. *)
Definition connectFromScratch (isReconnect : bool) (dial : error + transport_t)
    (wr : bool) (c : Client) : Client * list effect * option error :=
  if isReconnect && bool_decide (status c = DISCONNECTED) then (c, [ReconnectWaitCB], None)
  else if bool_decide (status c = CLOSED) then (c, [ReconnectWaitCB], Some ErrClientClosed)
  else
    let c1 := set_status (if isReconnect then RECONNECTING else CONNECTING) c in
    let c2 := set_reconnect true c1 in
    let connectError :=
      Go (GoHandleDisconnect (Some (mkDisconnect "connect error" true))) in
    match dial with
    | inl e => (c2, [connectError; ReconnectWaitCB], Some e)
    | inr t =>
        if bool_decide (status c2 = CONNECTED \/ status c2 = DISCONNECTED
                        \/ status c2 = CLOSED)
        then (c2, [TransportClose t; ReconnectWaitCB], None)
        else
          let c3 := set_transport (Some t) c2 in
          match sendConnect wr isReconnect c3 with
          | (c4, effs, Some e) =>
              (c4, Go (GoReader t) :: effs ++ [ReconnectWaitCB; connectError], Some e)
          | (c4, effs, None) => (c4, Go (GoReader t) :: effs, None)
          end
    end.

(** [func (c *Client) Connect() error] *)
Definition Connect (dial : error + transport_t) (wr : bool) (c : Client)
  : Client * list effect * option error :=
  connectFromScratch false dial wr c.

(** [func (c *Client) Send(data []byte) error]: no ID, no registry entry. *)
Definition Send (wr : bool) (data : Raw) (c : Client) : list effect * option error :=
  match paramsEncoder (PSend data) with
  | inl e => ([], Some e)
  | inr paramsData => send wr (mkCommand 0 MethodTypeSend (Some paramsData)) c
  end.

(** [func (c *Client) NamedRPC(method string, data []byte, fn)]: the ID is
    allocated first; an encoding failure and an error of [sendAsync] go
    to [fn] directly. *)
Definition NamedRPC (wr : bool) (method : string) (data : Raw) (c : Client)
  : Client * list effect :=
  let '(uid, c1) := nextMsgID c in
  match paramsEncoder (PRPC method data) with
  | inl _ => (c1, [Fn CbRPC (Some ErrEncode)])
  | inr paramsData =>
      match sendAsync wr (mkCommand uid MethodTypeRPC (Some paramsData)) (Some CbRPC) c1 with
      | (c2, effs, Some e) => (c2, effs ++ [Fn CbRPC (Some e)])
      | (c2, effs, None) => (c2, effs)
      end
  end.

(** [func (c *Client) RPC(data []byte, fn)] *)
Definition RPC (wr : bool) (data : Raw) (c : Client) : Client * list effect :=
  NamedRPC wr EmptyString data c.

(** The shape shared by [sendPublish], [sendHistory], [sendPresence] and
    [sendPresenceStats]: encode the params (a failure goes to [fn]),
    allocate the ID, [sendAsync], and hand an error of [sendAsync] to
    [fn]. *)
Definition sendRequest (wr : bool) (p : Params) (m : MethodType) (k : callback)
    (c : Client) : Client * list effect :=
  match paramsEncoder p with
  | inl e => (c, [Fn k (Some e)])
  | inr paramsData =>
      let '(uid, c1) := nextMsgID c in
      match sendAsync wr (mkCommand uid m (Some paramsData)) (Some k) c1 with
      | (c2, effs, Some e) => (c2, effs ++ [Fn k (Some e)])
      | (c2, effs, None) => (c2, effs)
      end
  end.

(** [func (c *Client) Publish(channel string, data []byte, fn)] *)
Definition Publish (wr : bool) (channel : string) (data : Raw) (c : Client)
  : Client * list effect :=
  sendRequest wr (PPublish channel data) MethodTypePublish CbPublish c.

(** [func (c *Client) history(channel string, fn)] *)
Definition history (wr : bool) (channel : string) (c : Client) : Client * list effect :=
  sendRequest wr (PHistory channel) MethodTypeHistory CbHistory c.

(** [func (c *Client) presence(channel string, fn)] *)
Definition presence (wr : bool) (channel : string) (c : Client) : Client * list effect :=
  sendRequest wr (PPresence channel) MethodTypePresence CbPresence c.

(** [func (c *Client) presenceStats(channel string, fn)] *)
Definition presenceStats (wr : bool) (channel : string) (c : Client)
  : Client * list effect :=
  sendRequest wr (PPresenceStats channel) MethodTypePresenceStats CbPresenceStats c.

End Commands.

(** ** Histories *)

(** The calls that change a client: the public operations, the reader
    handling a frame, and the goroutines the client starts (the reconnect
    routine calling [connectFromScratch], a request timer firing, a
    deferred [handleDisconnect]).  Each carries the outcomes of the
    external calls it makes. *)
Inductive op : Type :=
| OpSetToken (tok : string)
| OpSetConnectData (data : option Raw)
| OpConnect (dial : error + transport_t) (wr : bool)
| OpReconnect (dial : error + transport_t) (wr : bool)
| OpConnectReply (isReconnect : bool) (arg : error + ConnectResult)
    (refresh : error + string) (resub : string -> option error)
| OpHandleDisconnect (d : option disconnect)
| OpDisconnect
| OpClose
| OpNewSubscription (channel : string)
| OpSubscribe (wr : bool) (channel : string) (recover : bool)
    (streamPos : streamPosition) (tok : string)
| OpNamedRPC (wr : bool) (method : string) (data : Raw)
| OpPublish (wr : bool) (channel : string) (data : Raw)
| OpHistory (wr : bool) (channel : string)
| OpPresence (wr : bool) (channel : string)
| OpPresenceStats (wr : bool) (channel : string)
| OpHandle (reply : Reply) (push : option Push)
| OpRequestTimer (why : error) (uid : N).

Definition exec (enc : Params -> error + Raw) (o : op) (c : Client) : Client :=
  match o with
  | OpSetToken tok => SetToken tok c
  | OpSetConnectData data => SetConnectData data c
  | OpConnect dial wr => (Connect enc dial wr c).1.1
  | OpReconnect dial wr => (connectFromScratch enc true dial wr c).1.1
  | OpConnectReply isReconnect arg refresh resub =>
      (connectReply isReconnect arg refresh resub c).1
  | OpHandleDisconnect d => (handleDisconnect d c).1
  | OpDisconnect => (Disconnect c).1.1
  | OpClose => (Close c).1.1
  | OpNewSubscription channel => (NewSubscription channel c).1
  | OpSubscribe wr channel recover streamPos tok =>
      (sendSubscribe enc wr channel recover streamPos tok c).1.1
  | OpNamedRPC wr method data => (NamedRPC enc wr method data c).1
  | OpPublish wr channel data => (Publish enc wr channel data c).1
  | OpHistory wr channel => (history enc wr channel c).1
  | OpPresence wr channel => (presence enc wr channel c).1
  | OpPresenceStats wr channel => (presenceStats enc wr channel c).1
  | OpHandle reply push => (handle reply push c).1.1
  | OpRequestTimer why uid => (requestTimer why uid c).1
  end.

(** The client after the history [ops], oldest call first. *)
Definition run (enc : Params -> error + Raw) (ops : list op) (c : Client) : Client :=
  foldl (fun c o => exec enc o c) c ops.

(** A connect reply that succeeds carries a non-empty client identifier. *)
Definition assignsID (o : op) : Prop :=
  match o with
  | OpConnectReply _ (inr res) _ _ => res_Client res <> EmptyString
  | _ => True
  end.

(** ** Goroutines on the request registry *)

(** The paths that resolve a registry entry run in different goroutines:
    the reader in [handle], the goroutine of [sendAsync], and
    [handleDisconnect].  Each takes a lock only around its accesses to the
    shared maps and calls the callback after releasing it.  A goroutine is
    modelled by the point it has reached, between two critical sections,
    together with the local variables it holds there. *)
Inductive goroutine : Type :=
| ReaderLookup (reply : Reply)
    (* handle, reply.ID > 0, before c.requests[reply.ID] is read *)
| ReaderCall (reply : Reply) (found : option request)
    (* after RUnlock, holding (req, ok), before the call of req.cb on the reply *)
| ReaderRemove (uid : N)
    (* before c.removeRequest(reply.ID) *)
| TimerSelect (uid : N)
    (* the goroutine of sendAsync, blocked in its select *)
| TimerLookup (why : error) (uid : N)
    (* a case of the select has fired, before c.requests[cmd.ID] is read *)
| TimerCall (why : error) (uid : N) (req : request)
    (* after RUnlock with ok = true, before req.cb(protocol.Reply{}, why) *)
| TimerRemove (uid : N)
    (* before the deferred c.removeRequest(cmd.ID) *)
| DisconnectEnter (d : option disconnect)
    (* handleDisconnect, before c.mutex.Lock() *)
| DisconnectCalls (d : disconnect) (reqs : gmap N request)
    (unsubs : list (string * Subscription)) (needDisconnectEvent : bool)
    (* after c.mutex.Unlock(), holding the drained registry *)
| Finished.

(** One step of a goroutine: from one point to the next, on the shared
    client, with the effects of the step.  [time.After] may fire at any
    moment; the [closeCh] case of the select needs the channel closed. *)
Inductive gstep : goroutine -> Client -> goroutine -> Client -> list effect -> Prop :=
| g_reader_lookup reply c :
    0 < reply_ID reply ->
    gstep (ReaderLookup reply) c
          (ReaderCall reply (requests c !! reply_ID reply)) c []
| g_reader_call reply found c :
    gstep (ReaderCall reply found) c
          (ReaderRemove (reply_ID reply)) c (replyEffects reply found)
| g_reader_remove uid c :
    gstep (ReaderRemove uid) c Finished (removeRequest uid c) []
| g_timer_timeout uid c :
    gstep (TimerSelect uid) c (TimerLookup ErrTimeout uid) c []
| g_timer_closed uid c :
    closeCh c = true ->
    gstep (TimerSelect uid) c (TimerLookup ErrClientClosed uid) c []
| g_timer_lookup_found why uid req c :
    requests c !! uid = Some req ->
    gstep (TimerLookup why uid) c (TimerCall why uid req) c []
| g_timer_lookup_missing why uid c :
    requests c !! uid = None ->
    gstep (TimerLookup why uid) c (TimerRemove uid) c []
| g_timer_call why uid req c :
    gstep (TimerCall why uid req) c (TimerRemove uid) c (timerEffects why uid req)
| g_timer_remove uid c :
    gstep (TimerRemove uid) c Finished (removeRequest uid c) []
| g_disconnect_inactive d c :
    status c = DISCONNECTED \/ status c = CLOSED ->
    gstep (DisconnectEnter d) c Finished c []
| g_disconnect_locked d c :
    ~ (status c = DISCONNECTED \/ status c = CLOSED) ->
    let d' := default (mkDisconnect "connection closed" true) d in
    gstep (DisconnectEnter d) c
          (DisconnectCalls d' (requests c) (map_to_list (subs c))
             (bool_decide (status c = CONNECTING \/ status c = CONNECTED)))
          (disconnectLocked d' c) (closeTransport c)
| g_disconnect_calls d reqs unsubs needDisconnectEvent c :
    gstep (DisconnectCalls d reqs unsubs needDisconnectEvent) c
          Finished (disconnectCalls d reqs unsubs needDisconnectEvent c).1
          (disconnectCalls d reqs unsubs needDisconnectEvent c).2.

(** The shared client, the goroutines, and the effects so far. *)
Record system : Type := mkSystem {
  shared : Client;
  pool : list goroutine;
  trace : list effect
}.

(** Any goroutine of the pool may take the next step. *)
Inductive step : system -> system -> Prop :=
| step_goroutine before g after c tr g' c' effs :
    gstep g c g' c' effs ->
    step (mkSystem c (before ++ g :: after) tr)
         (mkSystem c' (before ++ g' :: after) (tr ++ effs)).

Definition steps : system -> system -> Prop := rtc step.









(** The three paths run one at a time, each to its end. *)
Inductive path : Type :=
| PathReply (reply : Reply)
| PathTimer (why : error) (uid : N)
| PathDisconnect (d : option disconnect).

Definition runPath (p : path) (c : Client) : Client * list effect :=
  match p with
  | PathReply reply => ((handle reply None c).1.1, (handle reply None c).1.2)
  | PathTimer why uid => requestTimer why uid c
  | PathDisconnect d => handleDisconnect d c
  end.

Fixpoint runPaths (ps : list path) (c : Client) : Client * list effect :=
  match ps with
  | [] => (c, [])
  | p :: ps' =>
      let '(c1, effs1) := runPath p c in
      let '(c2, effs2) := runPaths ps' c1 in
      (c2, effs1 ++ effs2)
  end.

(** ** Observations and example clients *)

(** The offset stored for a server-side subscription. *)
Definition storedOffset (channel : string) (c : Client) : option N :=
  ss_Offset <$> serverSubs c !! channel.

(** The stored offset of [channel] after each of the publications [pubs],
    handled one after the other. *)
Fixpoint offsetsAfter (channel : string) (pubs : list Publication) (c : Client)
  : list (option N) :=
  match pubs with
  | [] => []
  | pub :: pubs' =>
      let c1 := (handleServerPublication channel pub c).1 in
      storedOffset channel c1 :: offsetsAfter channel pubs' c1
  end.

(** The recovery request of one server-side subscription, if any. *)
Definition recoverEntry (s : serverSub) : option SubscribeRequest :=
  if ss_Recoverable s then Some (recoverRequest s) else None.

(** Without a live session there is no transport, and the shutdown channel
    is closed exactly in the status CLOSED. *)
Definition session_inv (c : Client) : Prop :=
  (status c = DISCONNECTED \/ status c = CLOSED -> transport c = None) /\
  (closeCh c = true <-> status c = CLOSED).

(** A client as [New] leaves it, and the encoder used in the closed
    examples below (it accepts everything and produces no bytes). *)
Definition freshClient : Client :=
  mkClient EmptyString None None 0 DISCONNECTED EmptyString ∅ ∅ ∅
    true O newEventHub false false.

Definition nullEncoder (p : Params) : error + Raw := inr [].

(** A connect reply announcing the recoverable server-side subscription
    "news" at offset 5, and the history of a client that connects and gets
    this reply: [Connect] sends command 1; the reader hands the reply to
    the registered closure, which runs [connectReply], and removes the
    entry. *)
Definition newsResult : ConnectResult :=
  mkConnectResult "client-42" false 0
    {[ "news" := mkSubscribeResult false [] 5 "e1" true ]}.

Definition connectHistory : list op :=
  [OpConnect (inr 1%nat) true;
   OpConnectReply false (inr newsResult) (inl ErrTimeout) (fun _ => None);
   OpHandle (mkReply 1 None []) None].

Definition connectedClient : Client := run nullEncoder connectHistory freshClient.

(** The client of [connectedClient] after a transport loss: it is
    RECONNECTING and still holds the recoverable server-side subscription
    "news" at offset 5; it has neither a token nor connect data. *)
Definition lostClient : Client := (handleDisconnect None connectedClient).1.

(** A client with a Publish command in flight: command 2, registered with
    the closure of [sendPublish], written to the transport, its timer
    goroutine started. *)
Definition publishingClient : Client :=
  (Publish nullEncoder true "test" [] connectedClient).1.

Definition publishReply : Reply := mkReply 2 None [].

(** ** The rest of client.go *)

(** [func (c *Client) connected() bool] *)
Definition connected (c : Client) : bool := bool_decide (status c = CONNECTED).

(** [func (c *Client) subscribed(channel string) bool] *)
Definition subscribed (channel : string) (c : Client) : bool :=
  bool_decide (is_Some (subs c !! channel)).

(** [func (c *Client) clientID() string] *)
Definition clientID (c : Client) : string := id c.

(** [func (c *Client) privateSign(channel string) (string, error)].  The
    prefix is [c.config.PrivateChannelPrefix]; [onPrivateSub] is [None] when
    no handler is registered and otherwise what the handler returns.  The
    event hub itself is never nil after [New]. *)
Definition privateSign (privateChannelPrefix : string)
    (onPrivateSub : option (error + string)) (channel : string) : error + string :=
  if String.prefix privateChannelPrefix channel then
    match onPrivateSub with
    | Some (inl e) => inl e
    | Some (inr ps) => inr ps
    | None =>
        inl (ErrHandler
               "PrivateSubHandler must be set to handle private channel subscriptions")
    end
  else inr EmptyString.

(** The closure that [sendUnsubscribe] registers. *)
Definition CbUnsubscribe : callback := CbUser 0.

(** [func (c *Client) sendUnsubscribe(channel string, fn)]; [encoded] is the
    outcome of encoding the [protocol.UnsubscribeRequest]. *)
Definition sendUnsubscribe (encoded : error + Raw) (wr : bool) (channel : string)
    (c : Client) : Client * list effect :=
  match encoded with
  | inl e => (c, [Fn CbUnsubscribe (Some e)])
  | inr paramsData =>
      let '(uid, c1) := nextMsgID c in
      match sendAsync wr (mkCommand uid MethodTypeUnsubscribe (Some paramsData))
              (Some CbUnsubscribe) c1 with
      | (c2, effs, Some e) => (c2, effs ++ [Fn CbUnsubscribe (Some e)])
      | (c2, effs, None) => (c2, effs)
      end
  end.

(** [func (c *Client) unsubscribe(channel string, fn)] *)
Definition unsubscribe (encoded : error + Raw) (wr : bool) (channel : string)
    (c : Client) : Client * list effect :=
  if negb (subscribed channel c) then (c, [])
  else sendUnsubscribe encoded wr channel c.

(** [func (c *Client) sendPing(fn func(error))]: the error of [sendAsync] is
    dropped. *)
Definition sendPing (wr : bool) (c : Client) : Client * list effect :=
  let '(uid, c1) := nextMsgID c in
  let '(c2, effs, _) := sendAsync wr (mkCommand uid MethodTypePing None) (Some CbPing) c1 in
  (c2, effs).

(** The function that [periodicPing] passes to [sendPing], called with the
    error of the ping. *)
Definition pingResult (err : option error) : list effect :=
  match err with
  | Some _ => [Go (GoHandleDisconnect (Some (mkDisconnect "no ping" true)))]
  | None => []
  end.

(** [func (c *Client) sendRefresh(closeCh chan struct{})], up to the point
    where the Refresh command is on the wire; [encoded] is the outcome of
    encoding the [protocol.RefreshRequest] with the new token. *)
Definition sendRefresh (refresh : error + string) (encoded : error + Raw) (wr : bool)
    (c : Client) : Client * list effect :=
  match refreshToken refresh c with
  | (c1, Some _) => (c1, [])
  | (c1, None) =>
      let '(uid, c2) := nextMsgID c1 in
      match encoded with
      | inl _ => (c2, [])
      | inr paramsData =>
          let '(c3, effs, _) :=
            sendAsync wr (mkCommand uid MethodTypeRefresh (Some paramsData))
              (Some CbRefresh) c2 in
          (c3, effs)
      end
  end.

(** What [transport.Read] returns: an error with its optional disconnect
    advice, or a frame together with the outcome of decoding it as a push. *)
Inductive readResult : Type :=
| ReadError (d : option disconnect) (e : error)
| ReadReply (reply : Reply) (push : option Push).

(** [func (c *Client) readOnce(t transport) error].  The third component
    tells whether the frame signalled [c.delayPing]. *)
Definition readOnce (r : readResult) (c : Client)
  : Client * list effect * bool * option error :=
  match r with
  | ReadError d e => (c, [Go (GoHandleDisconnect d)], false, Some e)
  | ReadReply reply push =>
      let '(c1, effs, err) := handle reply push c in
      match err with
      | Some e => (c1, effs ++ handleError e c1, true, None)
      | None => (c1, effs, true, None)
      end
  end.

(** [func (c *Client) reader(t transport, closeCh chan struct{})] on the
    frames the transport delivers, in order.  The loop ends at the first
    error of [readOnce]; the last component tells whether it has ended
    (and closed the channel of its session) or waits for more. *)
Fixpoint reader (frames : list readResult) (c : Client) : Client * list effect * bool :=
  match frames with
  | [] => (c, [], false)
  | r :: frames' =>
      match readOnce r c with
      | (c1, effs, _, Some _) => (c1, effs, true)
      | (c1, effs, _, None) =>
          let '(c2, effs', ended) := reader frames' c1 in
          (c2, effs ++ effs', ended)
      end
  end.

(** One turn of the loop of [reconnectRoutine], taken when a signal is
    pending on [c.reconnectCh]: the signal is consumed, the strategy is
    asked for the delay, and after the delay the status is checked again.
    [strategy] is [reconnectStrategy.timeBeforeNextAttempt]; sending on the
    semaphore is what [reconnectWaitCB] does.  The last component tells
    whether the routine goes on. *)
Definition reconnectTurn (enc : Params -> error + Raw) (strategy : nat -> error + N)
    (dial : error + transport_t) (wr : bool) (c : Client)
  : Client * list effect * bool :=
  if negb (reconnectCh c) then (c, [], true)
  else
    let c0 := set_reconnectCh false c in
    match strategy (reconnectAttempts c0) with
    | inl e => (c0, handleError e c0, false)
    | inr _ =>
        if negb (bool_decide (status c0 = RECONNECTING)) then (c0, [ReconnectWaitCB], true)
        else
          let c1 := set_reconnectAttempts (S (reconnectAttempts c0)) c0 in
          if negb (reconnect c1) then (c1, [ReconnectWaitCB], true)
          else
            match connectFromScratch enc true dial wr c1 with
            | (c2, effs, Some e) => (c2, effs ++ handleError e c2, true)
            | (c2, effs, None) => (c2, effs, true)
            end
    end.

(** Histories over all the modelled calls: those of [op], and the ping
    loop, the token refresh, [unsubscribe], the reader and the reconnect
    routine. *)
Inductive call : Type :=
| CallOp (o : op)
| CallPing (wr : bool)
| CallRefresh (refresh : error + string) (encoded : error + Raw) (wr : bool)
| CallUnsubscribe (encoded : error + Raw) (wr : bool) (channel : string)
| CallRead (r : readResult)
| CallReconnectTurn (strategy : nat -> error + N) (dial : error + transport_t) (wr : bool).

Definition perform (enc : Params -> error + Raw) (k : call) (c : Client) : Client :=
  match k with
  | CallOp o => exec enc o c
  | CallPing wr => (sendPing wr c).1
  | CallRefresh refresh encoded wr => (sendRefresh refresh encoded wr c).1
  | CallUnsubscribe encoded wr channel => (unsubscribe encoded wr channel c).1
  | CallRead r => (readOnce r c).1.1.1
  | CallReconnectTurn strategy dial wr => (reconnectTurn enc strategy dial wr c).1.1
  end.

Definition performAll (enc : Params -> error + Raw) (ks : list call) (c : Client) : Client :=
  foldl (fun c k => perform enc k c) c ks.

(** The statuses with a session being set up or alive. *)
Definition active (c : Client) : Prop :=
  status c = CONNECTING \/ status c = CONNECTED \/ status c = RECONNECTING.

(** The invariant of all histories: no transport without a session, the
    shutdown channel closed exactly in CLOSED, the reconnect flag set
    whenever a session is being set up or alive, and the counter in the
    range of uint32. *)
Definition client_inv (c : Client) : Prop :=
  session_inv c /\ (active c -> reconnect c = true) /\ msgID c < uint32_modulus.

(** One failed attempt of the reconnect routine: the turn whose dial fails
    with [e], followed by the [handleDisconnect] that [connectFromScratch]
    started for the connect error. *)
Definition failedReconnect (enc : Params -> error + Raw) (strategy : nat -> error + N)
    (e : error) (c : Client) : Client :=
  (handleDisconnect (Some (mkDisconnect "connect error" true))
     (reconnectTurn enc strategy (inl e) true c).1.1).1.

(** Kinds of effects. *)
Definition is_panic (e : effect) : bool :=
  match e with Panic _ => true | _ => false end.

Definition is_onDisconnect (e : effect) : bool :=
  match e with FireOnDisconnect _ _ => true | _ => false end.


(** The channel of a push that is routed by channel. *)
Definition pushChannel (msg : Push) : option string :=
  match msg with
  | PushUnsub ch _ | PushPublication ch _ | PushJoin ch _ | PushLeave ch _ => Some ch
  | PushMessage _ | PushOther => None
  end.

(** A read that delivered a frame. *)
Definition isFrame (r : readResult) : Prop :=
  match r with ReadReply _ _ => True | ReadError _ _ => False end.

(** The same Subscription up to its recover flag, the only field that
    client.go writes. *)
Definition sameSubscription (s s' : Subscription) : Prop :=
  sub_channel s' = sub_channel s /\ sub_status s' = sub_status s /\ sub_pos s' = sub_pos s.

(** What one call may do to the map of Subscriptions: nothing, set the
    recover flag of every entry, or add an entry for a new channel. *)
Definition subs_step (c c' : Client) : Prop :=
  subs c' = subs c \/
  (exists r, subs c' = set_sub_recover r <$> subs c) \/
  (exists ch, subs c !! ch = None /\ subs c' = <[ch := newSubscription ch]> (subs c)).

(** * Properties *)

Lemma New_ws : New "ws://localhost:8000/connection/websocket" = Some freshClient.
Proof. reflexivity. Qed.

Lemma New_rejects_http : New "http://localhost:8000" = None.
Proof. reflexivity. Qed.

(** ** The command-ID counter *)

Lemma uint32_modulus_pos : 0 < uint32_modulus.
Proof. reflexivity. Qed.

Lemma nextMsgID_range (c : Client) : (nextMsgID c).1 < uint32_modulus.
Proof. simpl. apply N.mod_lt. discriminate. Qed.

Lemma nextMsgID_msgID (c : Client) : msgID (nextMsgID c).2 = (nextMsgID c).1.
Proof. reflexivity. Qed.

(** The [i]-th of [n] successive allocations is the counter plus [i + 1],
    modulo 2^32. *)
Lemma allocate_lookup (n : nat) : forall (c : Client) (i : nat),
  (i < n)%nat ->
  (allocate n c).1 !! i = Some ((msgID c + N.of_nat i + 1) mod uint32_modulus).
Proof.
  induction n as [|n IH]; intros c i Hi; [lia|].
  simpl. destruct (allocate n (set_msgID _ c)) as [vs c2] eqn:E.
  destruct i as [|i]; simpl.
  - f_equal. f_equal. lia.
  - specialize (IH (set_msgID ((msgID c + 1) mod uint32_modulus) c) i).
    rewrite E in IH. simpl in IH. rewrite IH by lia.
    f_equal. cbn [msgID set_msgID].
    replace ((msgID c + 1) mod uint32_modulus + N.of_nat i + 1)
      with ((msgID c + 1) mod uint32_modulus + (N.of_nat i + 1)) by lia.
    rewrite N.Div0.add_mod_idemp_l. f_equal. lia.
Qed.

(** C6, as stated, fails at the wrap-around: with the counter at
    2^32 - 1 (a value of the uint32 field, reached after 2^32 - 1
    allocations) [nextMsgID] hands out the ID 0. *)
Lemma nextMsgID_zero_at_wrap :
  msgID (set_msgID 4294967295 freshClient) < uint32_modulus /\
  (nextMsgID (set_msgID 4294967295 freshClient)).1 = 0.
Proof. split; reflexivity. Qed.

(** C6 (amended): the command-ID counter is a 32-bit counter that
    [nextMsgID] advances by one modulo 2^32, returning the new value.  The
    allocated ID is the successor of the counter, hence larger and nonzero,
    as long as the counter is below 2^32 - 1; at 2^32 - 1 the counter wraps
    and the allocated ID is 0. *)
Theorem nextMsgID_spec (c : Client) :
  msgID c < uint32_modulus ->
  (nextMsgID c).1 = (msgID c + 1) mod uint32_modulus /\
  msgID (nextMsgID c).2 = (nextMsgID c).1 /\
  (nextMsgID c).1 < uint32_modulus /\
  (msgID c < uint32_modulus - 1 ->
     (nextMsgID c).1 = msgID c + 1 /\ msgID c < (nextMsgID c).1 /\ (nextMsgID c).1 <> 0) /\
  (msgID c = uint32_modulus - 1 -> (nextMsgID c).1 = 0).
Proof.
  intros Hr. split; [reflexivity|]. split; [reflexivity|].
  split; [apply nextMsgID_range|]. split.
  - intros Hlt. cbn [nextMsgID fst].
    rewrite N.mod_small by (unfold uint32_modulus in *; lia).
    repeat split; lia.
  - intros Hmax. cbn [nextMsgID fst]. rewrite Hmax. reflexivity.
Qed.

Lemma nextMsgID_spec_witness :
  (nextMsgID (set_msgID 41 freshClient)).1 = 42.
Proof.
  destruct (nextMsgID_spec (set_msgID 41 freshClient)) as (_ & _ & _ & H & _).
  - reflexivity.
  - destruct H as [H _]; [reflexivity|]. exact H.
Defined.

(** ** The Subscribe request *)

(** C5, as stated, fails where both encodings are available: with
    [Seq = 1] and [Offset = 5] the request carries the legacy seq and not
    the offset, so epoch+offset is not the preferred encoding.  With no
    position at all, neither encoding is sent. *)
Lemma subscribeParams_prefers_legacy :
  let r := subscribeParams "news" true (mkStreamPosition 1 0 5 "e1") EmptyString in
  let z := subscribeParams "news" true (mkStreamPosition 0 0 0 "e1") EmptyString in
  (sr_Seq r = 1 /\ sr_Offset r = 0) /\
  (sr_Seq z = 0 /\ sr_Gen z = 0 /\ sr_Offset z = 0).
Proof. repeat split. Qed.

(** C5 (amended): a Subscribe request built with the recover flag never
    carries both position encodings.  The legacy seq/gen encoding is the
    preferred one: it is sent whenever seq or gen is non-zero, and the
    offset is then left out; the offset is sent only when seq and gen are
    both zero.  With all three zero neither is sent.  The epoch is copied
    in every case. *)
Theorem subscribeParams_recover (channel tok : string) (streamPos : streamPosition) :
  let r := subscribeParams channel true streamPos tok in
  sr_Channel r = channel /\ sr_Token r = tok /\ sr_Recover r = true /\
  sr_Epoch r = sp_Epoch streamPos /\
  ~ ((sr_Seq r <> 0 \/ sr_Gen r <> 0) /\ sr_Offset r <> 0) /\
  (sp_Seq streamPos <> 0 \/ sp_Gen streamPos <> 0 ->
     sr_Seq r = sp_Seq streamPos /\ sr_Gen r = sp_Gen streamPos /\ sr_Offset r = 0) /\
  (sp_Seq streamPos = 0 -> sp_Gen streamPos = 0 ->
     sr_Seq r = 0 /\ sr_Gen r = 0 /\ sr_Offset r = sp_Offset streamPos).
Proof.
  destruct streamPos as [sq gn off ep]. unfold subscribeParams.
  cbn [sp_Seq sp_Gen sp_Offset sp_Epoch].
  destruct (decide (tok = EmptyString)) as [->|Ht];
    repeat case_bool_decide; cbn; try congruence;
    repeat split; try lia; intuition lia.
Qed.

(** ** NewSubscription *)

(** C8: [NewSubscription channel] returns [ErrDuplicateSubscription] exactly
    when the map already has a Subscription for the channel; on the error
    the client is unchanged; on success the new Subscription is stored
    under the channel and nothing else changes, so the map grows by exactly
    one entry, and a second call for the same channel is rejected. *)
Theorem NewSubscription_spec (channel : string) (c : Client) :
  let c' := (NewSubscription channel c).1 in
  let r := (NewSubscription channel c).2 in
  (r = inl ErrDuplicateSubscription <-> is_Some (subs c !! channel)) /\
  (r = inl ErrDuplicateSubscription -> c' = c) /\
  (r <> inl ErrDuplicateSubscription ->
     r = inr (newSubscription channel) /\
     c' = set_subs (<[channel := newSubscription channel]> (subs c)) c /\
     subs c' !! channel = Some (newSubscription channel) /\
     (forall ch, ch <> channel -> subs c' !! ch = subs c !! ch) /\
     size (subs c') = S (size (subs c))) /\
  (NewSubscription channel c').2 = inl ErrDuplicateSubscription.
Proof.
  unfold NewSubscription.
  destruct (subs c !! channel) as [s|] eqn:E; cbn.
  - rewrite E. cbn. split; [split; eauto|]. split; [done|]. split; [|done].
    intros H. by destruct H.
  - rewrite lookup_insert_eq. cbn. split; [split; [congruence|by intros [s Hs]]|].
    split; [congruence|]. split; [|done]. intros _.
    split; [done|]. split; [done|]. split; [done|]. split.
    + intros ch Hne. by apply lookup_insert_ne.
    + by apply map_size_insert_None.
Qed.

(** ** Disconnect *)

Lemma handleDisconnect_inactive (d : option disconnect) (c : Client) :
  status c = DISCONNECTED \/ status c = CLOSED ->
  handleDisconnect d c = (c, []).
Proof.
  intros H. unfold handleDisconnect. by rewrite bool_decide_eq_true_2.
Qed.

Lemma handleDisconnect_status (d : option disconnect) (c : Client) :
  status (handleDisconnect d c).1 = DISCONNECTED \/
  status (handleDisconnect d c).1 = RECONNECTING \/
  status (handleDisconnect d c).1 = CLOSED.
Proof.
  unfold handleDisconnect, disconnectCalls, disconnectLocked. case_bool_decide as H.
  - destruct H as [H|H]; cbn; rewrite H; auto.
  - destruct (Reconnect (default _ d)); cbn; auto.
Qed.

Lemma disconnect_inactive (reconnect : bool) (c : Client) :
  status c = DISCONNECTED \/ status c = CLOSED ->
  disconnect_ reconnect c = (set_reconnect reconnect c, [], None).
Proof.
  intros H. unfold disconnect_. by rewrite handleDisconnect_inactive.
Qed.

(** C9: when the status is DISCONNECTED or CLOSED already, the disconnect
    routine is a no-op: [handleDisconnect] returns the client as it is,
    with an empty trace, and [disconnect] only stores the reconnect flag;
    status, transport, request registry and both subscription maps are
    unchanged, and neither OnDisconnect nor OnUnsubscribe fires. *)
Theorem disconnect_inactive_noop (reconnect : bool) (d : option disconnect) (c : Client) :
  status c = DISCONNECTED \/ status c = CLOSED ->
  handleDisconnect d c = (c, []) /\
  disconnect_ reconnect c = (set_reconnect reconnect c, [], None) /\
  let c' := (disconnect_ reconnect c).1.1 in
  status c' = status c /\ transport c' = transport c /\
  requests c' = requests c /\ subs c' = subs c /\ serverSubs c' = serverSubs c.
Proof.
  intros H. split; [by apply handleDisconnect_inactive|].
  rewrite disconnect_inactive by done. done.
Qed.

Lemma disconnect_inactive_noop_witness :
  disconnect_ true freshClient = (set_reconnect true freshClient, [], None).
Proof.
  apply (disconnect_inactive_noop true None freshClient). left. reflexivity.
Defined.

(** Disconnecting twice is disconnecting once, whatever the state. *)
Lemma Disconnect_idempotent (c : Client) :
  Disconnect (Disconnect c).1.1 = ((Disconnect c).1.1, [], None).
Proof.
  unfold Disconnect, disconnect_.
  destruct (handleDisconnect _ (set_reconnect false c)) as [c2 effs] eqn:E. cbn.
  assert (Hs : status c2 = DISCONNECTED \/ status c2 = CLOSED).
  { pose proof (f_equal fst E) as E1. cbn in E1. subst c2.
    unfold handleDisconnect, disconnectCalls, disconnectLocked.
    case_bool_decide as H; cbn; [done|]. auto. }
  assert (Hr : set_reconnect false c2 = c2).
  { pose proof (f_equal fst E) as E1. cbn in E1. subst c2.
    unfold handleDisconnect, disconnectCalls, disconnectLocked.
    case_bool_decide as H; cbn; reflexivity. }
  rewrite Hr. by rewrite handleDisconnect_inactive.
Qed.

(** ** Close *)

Lemma Close_closed_eq (c : Client) :
  status c = CLOSED -> Close c = (set_reconnect false c, [], None).
Proof.
  intros H. unfold Close, Disconnect.
  rewrite disconnect_inactive by (by right).
  cbn. by rewrite bool_decide_eq_true_2.
Qed.

(** C10: a call of [Close] on a client whose status is CLOSED returns nil,
    performs nothing (in particular it does not close the shutdown channel
    again and does not panic) and leaves the status at CLOSED. *)
Theorem Close_closed (c : Client) :
  status c = CLOSED ->
  Close c = (set_reconnect false c, [], None) /\
  status (Close c).1.1 = CLOSED /\
  closeCh (Close c).1.1 = closeCh c.
Proof.
  intros H. rewrite Close_closed_eq by done. done.
Qed.

Lemma Close_closed_witness :
  Close (set_status CLOSED (set_closeCh true freshClient))
  = (set_reconnect false (set_status CLOSED (set_closeCh true freshClient)), [], None).
Proof.
  apply (Close_closed (set_status CLOSED (set_closeCh true freshClient))). reflexivity.
Defined.

(** The first [Close] closes the shutdown channel once and ends in CLOSED;
    from a state whose shutdown channel is open it cannot panic. *)
Lemma Close_open (c : Client) :
  status c <> CLOSED -> closeCh c = false ->
  status (Close c).1.1 = CLOSED /\ closeCh (Close c).1.1 = true /\
  transport (Close c).1.1 = transport (Disconnect c).1.1 /\
  (Close c).1.2 = (Disconnect c).1.2 ++ [CloseCloseCh].
Proof.
  intros Hs Hc. unfold Close.
  destruct (Disconnect c) as [[c1 effs] err] eqn:E.
  assert (Hs1 : status c1 <> CLOSED /\ closeCh c1 = false).
  { pose proof (f_equal (fun x => x.1.1) E) as E1. cbn in E1. subst c1.
    unfold Disconnect, disconnect_, handleDisconnect, disconnectCalls, disconnectLocked.
    cbn. case_bool_decide as H; cbn; done. }
  destruct Hs1 as [Hs1 Hc1]. rewrite bool_decide_eq_false_2 by done. rewrite Hc1.
  done.
Qed.

Lemma set_reconnect_same (c : Client) : set_reconnect (reconnect c) c = c.
Proof. by destruct c. Qed.

Lemma Disconnect_reconnect (c : Client) : reconnect (Disconnect c).1.1 = false.
Proof.
  unfold Disconnect, disconnect_, handleDisconnect, disconnectCalls, disconnectLocked.
  cbn. case_bool_decide; cbn; reflexivity.
Qed.

Lemma Close_reconnect (c : Client) : reconnect (Close c).1.1 = false.
Proof.
  unfold Close. pose proof (Disconnect_reconnect c) as H.
  destruct (Disconnect c) as [[c1 effs] err]. cbn in H.
  case_bool_decide; [|destruct (closeCh c1)]; cbn; done.
Qed.

(** Closing twice: the second call is the no-op of C10. *)
Lemma Close_twice (c : Client) :
  status c <> CLOSED -> closeCh c = false ->
  Close (Close c).1.1 = ((Close c).1.1, [], None).
Proof.
  intros Hs Hc. destruct (Close_open c Hs Hc) as (H1 & _).
  rewrite (Close_closed_eq _ H1).
  rewrite <- (Close_reconnect c) at 1. by rewrite set_reconnect_same.
Qed.

(** ** Server-side subscriptions *)

Lemma handleServerPublication_offset (channel : string) (pub : Publication) (c : Client)
    (ss : serverSub) :
  serverSubs c !! channel = Some ss ->
  serverSubs (handleServerPublication channel pub c).1 !! channel
  = Some (mkServerSub (pub_Offset pub) (ss_Epoch ss) (ss_Recoverable ss)).
Proof.
  intros H. unfold handleServerPublication. rewrite H. cbn. apply lookup_insert_eq.
Qed.

Lemma handleServerPublication_other (channel ch : string) (pub : Publication) (c : Client) :
  ch <> channel ->
  serverSubs (handleServerPublication channel pub c).1 !! ch = serverSubs c !! ch.
Proof.
  intros Hne. unfold handleServerPublication.
  destruct (serverSubs c !! channel); cbn; [|done]. by rewrite lookup_insert_ne.
Qed.

Lemma handleServerPublication_unknown (channel : string) (pub : Publication) (c : Client) :
  serverSubs c !! channel = None ->
  handleServerPublication channel pub c = (c, []).
Proof. intros H. unfold handleServerPublication. by rewrite H. Qed.

(** A publication pushed on a channel without client-side Subscription
    reaches [handleServerPublication]. *)
Lemma handle_server_publication (reply : Reply) (channel : string) (pub : Publication)
    (c : Client) :
  reply_ID reply = 0 -> subs c !! channel = None ->
  handle reply (Some (PushPublication channel (Some pub))) c
  = ((handleServerPublication channel pub c).1,
     (handleServerPublication channel pub c).2, None).
Proof.
  intros Hid Hsub. unfold handle, handlePush. rewrite Hid, Hsub.
  rewrite bool_decide_eq_false_2 by lia.
  by destruct (handleServerPublication channel pub c).
Qed.

(** The history of [connectedClient]: [Connect] sends command 1; the reader
    hands the reply to the registered closure, which runs [connectReply],
    and removes the entry. *)
Lemma connectedClient_status :
  (Connect nullEncoder (inr 1%nat) true freshClient).1.2
  = [Go (GoReader 1%nat); TransportWrite 1%nat (mkCommand 1 MethodTypeConnect None);
     Go (GoRequestTimer 1)] /\
  (handle (mkReply 1 None []) None (Connect nullEncoder (inr 1%nat) true freshClient).1.1).1.2
  = [Invoke 1 (CbConnect false) (mkReply 1 None []) None] /\
  status connectedClient = CONNECTED /\ id connectedClient = "client-42" /\
  transport connectedClient = Some 1%nat /\ requests connectedClient = ∅ /\
  serverSubs connectedClient = {[ "news" := mkServerSub 5 "e1" true ]}.
Proof. vm_compute. done. Qed.

(** C7, as stated, fails: a publication pushed on the server-side
    subscription "news" with offset 3 while the stored offset is 5 moves
    the stored offset down to 3. *)
Lemma server_offset_decreases :
  let pub := mkPublication 3 [] in
  let c' := (handle emptyReply (Some (PushPublication "news" (Some pub))) connectedClient).1.1 in
  status connectedClient = CONNECTED /\ status c' = CONNECTED /\
  storedOffset "news" connectedClient = Some 5 /\
  storedOffset "news" c' = Some 3.
Proof. vm_compute. done. Qed.

(** C7 (amended): each publication handled on a server-subscribed channel
    overwrites the stored offset of that channel with the offset of the
    publication, whatever the previous value was (epoch and recoverable
    flag are kept); after a sequence of publications the stored offsets
    are the offsets of the publications, in order.  The stored offset is
    thus non-decreasing exactly when the offsets the server sends are. *)
Theorem server_offset_follows_publications (channel : string) (pubs : list Publication)
    (c : Client) :
  is_Some (serverSubs c !! channel) ->
  offsetsAfter channel pubs c = (fun pub => Some (pub_Offset pub)) <$> pubs.
Proof.
  revert c. induction pubs as [|pub pubs IH]; intros c [ss Hss]; [reflexivity|].
  cbn [offsetsAfter fmap list_fmap].
  pose proof (handleServerPublication_offset channel pub c ss Hss) as H1.
  f_equal.
  - unfold storedOffset. by rewrite H1.
  - apply IH. by rewrite H1.
Qed.

Lemma server_offset_follows_publications_witness :
  offsetsAfter "news" [mkPublication 6 []; mkPublication 9 []; mkPublication 2 []]
    connectedClient
  = [Some 6; Some 9; Some 2].
Proof.
  apply (server_offset_follows_publications "news"
           [mkPublication 6 []; mkPublication 9 []; mkPublication 2 []] connectedClient).
  vm_compute. eauto.
Defined.

(** ** The Connect request *)

Lemma recoverSubs_lookup (ss : gmap string serverSub) (channel : string) :
  recoverSubs ss !! channel = ss !! channel ≫= recoverEntry.
Proof.
  unfold recoverSubs.
  apply (map_fold_weak_ind
           (fun (r : gmap string SubscribeRequest) (m : gmap string serverSub) =>
              r !! channel = m !! channel ≫= recoverEntry)).
  - by rewrite !lookup_empty.
  - intros i x m r Hi IH. destruct (decide (i = channel)) as [->|Hne].
    + rewrite lookup_insert_eq. cbn. unfold recoverEntry.
      destruct (ss_Recoverable x).
      * by rewrite lookup_insert_eq.
      * rewrite IH, Hi. done.
    + rewrite (lookup_insert_ne m) by done. rewrite <- IH.
      destruct (ss_Recoverable x); [by rewrite lookup_insert_ne|done].
Qed.

(** With a token or connect data, the Connect request of a reconnect
    carries a recovery request, with Recover set and the stored epoch and
    offset, for exactly the recoverable server-side subscriptions. *)
Lemma connectParams_recovery (c : Client) :
  token c <> EmptyString \/ is_Some (connectData c) ->
  serverSubs c <> ∅ ->
  exists params reqs,
    connectParams true c = Some params /\
    cr_Token params = token c /\ cr_Data params = connectData c /\
    cr_Subs params = Some reqs /\
    forall channel,
      reqs !! channel =
        match serverSubs c !! channel with
        | Some s =>
            if ss_Recoverable s
            then Some (mkSubscribeRequest EmptyString EmptyString true 0 0
                         (ss_Epoch s) (ss_Offset s))
            else None
        | None => None
        end.
Proof.
  intros Hguard Hne. unfold connectParams.
  assert (Hg : negb (bool_decide (token c = EmptyString))
               || bool_decide (is_Some (connectData c)) = true).
  { destruct Hguard as [H|H].
    - by rewrite (bool_decide_eq_false_2 _ H).
    - rewrite (bool_decide_eq_true_2 _ H). by destruct (negb _). }
  rewrite Hg.
  assert (Hsz : bool_decide (0 < size (serverSubs c))%nat = true).
  { apply bool_decide_eq_true_2.
    destruct (decide (size (serverSubs c) = 0%nat)) as [Hz|Hz]; [|lia].
    by apply map_size_empty_inv in Hz. }
  rewrite Hsz. cbn. eexists _, _. repeat split.
  intros channel. rewrite recoverSubs_lookup.
  destruct (serverSubs c !! channel) as [s|]; [|done]. done.
Qed.

(** The request built by [connectParams] is what [sendConnect] encodes and
    writes to the transport. *)
Lemma sendConnect_writes_params (enc : Params -> error + Raw) (isReconnect : bool)
    (c : Client) (t : transport_t) (params : ConnectRequest) (data : Raw) :
  transport c = Some t ->
  connectParams isReconnect c = Some params ->
  enc (PConnect params) = inr data ->
  (sendConnect enc true isReconnect c).1.2
  = [TransportWrite t (mkCommand (nextMsgID c).1 MethodTypeConnect (Some data));
     Go (GoRequestTimer (nextMsgID c).1)].
Proof.
  intros Ht Hp He. unfold sendConnect, sendAsync, send, nextMsgID, addRequest.
  cbn in *. unfold connectParams in *. cbn in *. rewrite Hp, He. cbn. by rewrite Ht.
Qed.

(** ** Invariants of histories *)

Ltac unfold_ops :=
  unfold SetToken, SetConnectData, Close, Connect, Publish, history, presence,
    presenceStats, Disconnect in *;
  unfold disconnect_, connectFromScratch, connectReply, NamedRPC, sendRequest,
    sendSubscribe, NewSubscription, handle, requestTimer in *;
  unfold sendConnect, refreshToken, connecting, resubscribe, handleDisconnect,
    handlePush in *;
  unfold disconnectCalls, disconnectLocked in *;
  unfold sendAsync, handleServerPublication, nextMsgID, removeRequest in *;
  unfold send, addRequest in *.

Ltac split_ops :=
  repeat (case_match || case_bool_decide); simplify_eq; cbn in *.

Lemma freshClient_session_inv : session_inv freshClient.
Proof. split; [done|]. cbn. split; discriminate. Qed.

Lemma exec_session_inv (enc : Params -> error + Raw) (o : op) (c : Client) :
  session_inv c -> session_inv (exec enc o c).
Proof.
  intros [Ht Hc]. destruct o; cbn [exec]; unfold_ops; split_ops;
    (split; [intros [?|?]|split; intros ?]); try done; intuition congruence.
Qed.

Lemma run_session_inv (enc : Params -> error + Raw) (ops : list op) (c : Client) :
  session_inv c -> session_inv (run enc ops c).
Proof.
  revert c. induction ops as [|o ops IH]; intros c Hc; [done|].
  cbn. apply IH. by apply exec_session_inv.
Qed.

(** ** The client identifier *)

Lemma handleDisconnect_id (d : option disconnect) (c : Client) :
  id (handleDisconnect d c).1 = id c.
Proof.
  unfold handleDisconnect, disconnectCalls, disconnectLocked.
  case_bool_decide; [done|]. destruct (Reconnect (default _ d)); done.
Qed.

Lemma Disconnect_id (c : Client) : id (Disconnect c).1.1 = id c.
Proof.
  unfold Disconnect, disconnect_.
  pose proof (handleDisconnect_id (Some (mkDisconnect "clean disconnect" false))
                (set_reconnect false c)) as H.
  destruct (handleDisconnect _ _) as [c2 effs]. exact H.
Qed.

Lemma Close_id (c : Client) : id (Close c).1.1 = id c.
Proof.
  unfold Close. pose proof (Disconnect_id c) as H.
  destruct (Disconnect c) as [[c1 effs] err]. cbn in H.
  case_bool_decide; [done|]. by destruct (closeCh c1).
Qed.

Lemma connectFromScratch_id (enc : Params -> error + Raw) (isReconnect : bool)
    (dial : error + transport_t) (wr : bool) (c : Client) :
  id (connectFromScratch enc isReconnect dial wr c).1.1 = id c.
Proof. unfold_ops; split_ops; done. Qed.

Lemma connectReply_success (isReconnect : bool) (res : ConnectResult)
    (refresh : error + string) (resub : string -> option error) (c : Client) :
  connecting c = true ->
  status (connectReply isReconnect (inr res) refresh resub c).1 = CONNECTED /\
  id (connectReply isReconnect (inr res) refresh resub c).1 = res_Client res.
Proof.
  intros H. unfold connectReply. rewrite H. cbn.
  destruct (resubscribe resub _) as [effs [e|]]; done.
Qed.

(** CONNECTED is entered only by a successful connect reply, which stores
    the identifier of the reply. *)
Lemma exec_connected_id (enc : Params -> error + Raw) (o : op) (c : Client) :
  assignsID o ->
  (status c = CONNECTED -> id c <> EmptyString) ->
  status (exec enc o c) = CONNECTED -> id (exec enc o c) <> EmptyString.
Proof.
  intros Ha Hinv. destruct o; cbn [exec assignsID] in *; unfold_ops; split_ops;
    try done; intuition congruence.
Qed.

Lemma run_connected_id (enc : Params -> error + Raw) (ops : list op) (c : Client) :
  Forall assignsID ops ->
  (status c = CONNECTED -> id c <> EmptyString) ->
  status (run enc ops c) = CONNECTED -> id (run enc ops c) <> EmptyString.
Proof.
  revert c. induction ops as [|o ops IH]; intros c Hall Hinv; [done|].
  inversion Hall as [|? ? Ho Hops]; subst. cbn. apply IH; [done|].
  by apply exec_connected_id.
Qed.

(** C2, as stated, fails: after a successful connect, [Disconnect] sets
    the status to DISCONNECTED and keeps the identifier the server
    assigned. *)
Lemma clientID_survives_disconnect :
  status connectedClient = CONNECTED /\
  status (Disconnect connectedClient).1.1 = DISCONNECTED /\
  id (Disconnect connectedClient).1.1 = "client-42" /\
  id (Disconnect connectedClient).1.1 <> EmptyString.
Proof. vm_compute. done. Qed.

(** C2 (amended): at every state reached from a new client by a history in
    which the server assigns non-empty identifiers, the status CONNECTED
    implies a non-empty identifier.  The identifier is empty after
    construction; a successful connect reply stores the server-assigned
    identifier as the status becomes CONNECTED; the transitions out of
    CONNECTED (a transport loss handled by [handleDisconnect], disconnect,
    close) and the reconnect attempt leave the identifier as it is. *)
Theorem clientID_spec (enc : Params -> error + Raw) (ops : list op)
    (d : option disconnect) (dial : error + transport_t) (wr : bool) :
  Forall assignsID ops ->
  let c := run enc ops freshClient in
  id freshClient = EmptyString /\
  (status c = CONNECTED -> id c <> EmptyString) /\
  (forall isReconnect res refresh resub,
     connecting c = true ->
     status (connectReply isReconnect (inr res) refresh resub c).1 = CONNECTED /\
     id (connectReply isReconnect (inr res) refresh resub c).1 = res_Client res) /\
  id (handleDisconnect d c).1 = id c /\
  id (Disconnect c).1.1 = id c /\
  id (Close c).1.1 = id c /\
  id (connectFromScratch enc true dial wr c).1.1 = id c.
Proof.
  intros Hall c. split; [done|]. split.
  - apply run_connected_id; [done|]. discriminate.
  - split; [intros; by apply connectReply_success|].
    split; [apply handleDisconnect_id|]. split; [apply Disconnect_id|].
    split; [apply Close_id|apply connectFromScratch_id].
Qed.

Lemma clientID_spec_witness :
  Forall assignsID connectHistory /\
  id (Close (run nullEncoder connectHistory freshClient)).1.1 = "client-42".
Proof.
  assert (Hall : Forall assignsID connectHistory).
  { repeat constructor. discriminate. }
  split; [exact Hall|].
  destruct (clientID_spec nullEncoder connectHistory None (inr 2%nat) true Hall)
    as (_ & _ & _ & _ & _ & H & _).
  rewrite H. reflexivity.
Defined.

(** ** After Close *)

Lemma Close_status (c : Client) :
  session_inv c -> status (Close c).1.1 = CLOSED /\ transport (Close c).1.1 = None.
Proof.
  intros [Ht Hc].
  assert (Hinv : session_inv (Close c).1.1) by (by apply (exec_session_inv (fun _ => inr []) OpClose)).
  assert (Hs : status (Close c).1.1 = CLOSED).
  { destruct (decide (status c = CLOSED)) as [Hcl|Hop].
    - by rewrite Close_closed_eq.
    - apply Close_open; [done|]. destruct (closeCh c) eqn:E; [|done].
      destruct Hop. by apply Hc. }
  split; [done|]. apply Hinv. by right.
Qed.

Lemma send_closed (wr : bool) (cmd : Command) (c : Client) :
  transport c = None -> send wr cmd c = ([], Some ErrClientDisconnected).
Proof. intros H. unfold send. by rewrite H. Qed.

Lemma sendRequest_closed (enc : Params -> error + Raw) (wr : bool) (p : Params)
    (m : MethodType) (k : callback) (c : Client) :
  transport c = None ->
  (sendRequest enc wr p m k c).2
  = [Fn k (Some (match enc p with inl e => e | inr _ => ErrClientDisconnected end))].
Proof.
  intros H. unfold sendRequest, sendAsync, send, nextMsgID, addRequest.
  destruct (enc p); cbn; [done|]. by rewrite H.
Qed.

(** C3, as stated, fails: on a closed client [Send] and [Publish] report
    ErrClientDisconnected, not ErrClientClosed. *)
Lemma Send_after_Close_disconnected :
  let c := (Close freshClient).1.1 in
  status c = CLOSED /\
  (Send nullEncoder true [] c).2 = Some ErrClientDisconnected /\
  (Publish nullEncoder true "test" [] c).2 = [Fn CbPublish (Some ErrClientDisconnected)] /\
  (Send nullEncoder true [] c).2 <> Some ErrClientClosed.
Proof. vm_compute. done. Qed.

(** C3 (amended): after [Close], whatever the history before it, the status
    is CLOSED and there is no transport.  [Connect] returns ErrClientClosed
    and changes nothing.  The operations that send a command fail with
    ErrClientDisconnected, unless the encoder fails first: [Send] returns
    it, [NamedRPC], [Publish], [history], [presence] and [presenceStats]
    hand it to the caller's function; none of them writes to a transport.
    [Disconnect] and [Close] return nil and change nothing.  None of these
    calls fires an event. *)
Theorem after_Close (enc : Params -> error + Raw) (ops : list op)
    (dial : error + transport_t) (wr : bool) (data : Raw) (method channel : string) :
  let c := (Close (run enc ops freshClient)).1.1 in
  status c = CLOSED /\ transport c = None /\
  Connect enc dial wr c = (c, [ReconnectWaitCB], Some ErrClientClosed) /\
  Send enc wr data c
  = ([], Some (match enc (PSend data) with inl e => e | inr _ => ErrClientDisconnected end)) /\
  (NamedRPC enc wr method data c).2
  = [Fn CbRPC (Some (match enc (PRPC method data) with
                     | inl _ => ErrEncode | inr _ => ErrClientDisconnected end))] /\
  (Publish enc wr channel data c).2
  = [Fn CbPublish (Some (match enc (PPublish channel data) with
                         | inl e => e | inr _ => ErrClientDisconnected end))] /\
  (history enc wr channel c).2
  = [Fn CbHistory (Some (match enc (PHistory channel) with
                         | inl e => e | inr _ => ErrClientDisconnected end))] /\
  (presence enc wr channel c).2
  = [Fn CbPresence (Some (match enc (PPresence channel) with
                          | inl e => e | inr _ => ErrClientDisconnected end))] /\
  (presenceStats enc wr channel c).2
  = [Fn CbPresenceStats (Some (match enc (PPresenceStats channel) with
                               | inl e => e | inr _ => ErrClientDisconnected end))] /\
  Disconnect c = (c, [], None) /\
  Close c = (c, [], None).
Proof.
  intros c.
  destruct (Close_status (run enc ops freshClient)) as [Hs Ht].
  { apply run_session_inv, freshClient_session_inv. }
  fold c in Hs, Ht.
  assert (Hr : set_reconnect false c = c).
  { rewrite <- (Close_reconnect (run enc ops freshClient)) at 1.
    apply set_reconnect_same. }
  split; [done|]. split; [done|]. split.
  { unfold Connect, connectFromScratch. rewrite Hs. done. }
  split.
  { unfold Send. destruct (enc (PSend data)); [done|]. by apply send_closed. }
  split.
  { unfold NamedRPC, sendAsync, send, nextMsgID, addRequest.
    destruct (enc (PRPC method data)); cbn; [done|]. by rewrite Ht. }
  split; [by apply sendRequest_closed|]. split; [by apply sendRequest_closed|].
  split; [by apply sendRequest_closed|]. split; [by apply sendRequest_closed|].
  split.
  - unfold Disconnect. rewrite disconnect_inactive by (by right). by rewrite Hr.
  - rewrite Close_closed_eq by done. by rewrite Hr.
Qed.

(** ** A reconnect without token *)

(** C4 at the failing input: the reconnect attempt of [lostClient] builds
    no Connect request at all, and the Connect command goes out with nil
    params, so no recovery request for "news" is sent, whatever the
    encoder. *)
Theorem reconnect_without_token_omits_recovery (enc : Params -> error + Raw) :
  status lostClient = RECONNECTING /\
  serverSubs lostClient = {[ "news" := mkServerSub 5 "e1" true ]} /\
  token lostClient = EmptyString /\ connectData lostClient = None /\
  connectParams true lostClient = None /\
  (connectFromScratch enc true (inr 2%nat) true lostClient).1.2
  = [Go (GoReader 2%nat);
     TransportWrite 2%nat (mkCommand 2 MethodTypeConnect None);
     Go (GoRequestTimer 2)].
Proof. vm_compute. done. Qed.

(** The same reconnect after [SetToken]: the recovery request is there. *)
Lemma reconnect_with_token_recovers :
  exists params,
    connectParams true (SetToken "jwt" lostClient) = Some params /\
    cr_Subs params
    = Some {[ "news" := mkSubscribeRequest EmptyString EmptyString true 0 0 "e1" 5 ]}.
Proof. eexists. split; vm_compute; reflexivity. Qed.

(** ** The request registry: a goroutine running alone *)

(** Run without interruption, the steps of a goroutine are the function of
    its path. *)
Lemma reader_steps_handle (reply : Reply) (push : option Push) (c : Client)
    (tr : list effect) :
  0 < reply_ID reply ->
  steps (mkSystem c [ReaderLookup reply] tr)
        (mkSystem (handle reply push c).1.1 [Finished] (tr ++ (handle reply push c).1.2)).
Proof.
  intros Hpos. unfold handle. rewrite bool_decide_eq_true_2 by done. cbn.
  eapply rtc_l; [apply (step_goroutine [] _ []); by apply g_reader_lookup|].
  eapply rtc_l; [apply (step_goroutine [] _ []); apply g_reader_call|].
  eapply rtc_l; [apply (step_goroutine [] _ []); apply g_reader_remove|].
  cbn. rewrite <- !app_assoc. cbn. rewrite app_nil_r. apply rtc_refl.
Qed.


Lemma disconnect_steps_handleDisconnect (d : option disconnect) (c : Client)
    (tr : list effect) :
  steps (mkSystem c [DisconnectEnter d] tr)
        (mkSystem (handleDisconnect d c).1 [Finished] (tr ++ (handleDisconnect d c).2)).
Proof.
  unfold handleDisconnect. case_bool_decide as H.
  - eapply rtc_l; [apply (step_goroutine [] _ []); by apply g_disconnect_inactive|].
    cbn. apply rtc_refl.
  - eapply rtc_l; [apply (step_goroutine [] _ []); by apply g_disconnect_locked|].
    eapply rtc_l; [apply (step_goroutine [] _ []); apply g_disconnect_calls|].
    destruct (disconnectCalls (default _ d) _ _ _ _) as [c1 effs]. cbn.
    rewrite <- app_assoc. apply rtc_refl.
Qed.

(** ** The request registry: a reply racing its timeout *)

Lemma publishingClient_in_flight :
  status publishingClient = CONNECTED /\
  requests publishingClient = {[ 2 := mkRequest (Some CbPublish) ]} /\
  (Publish nullEncoder true "test" [] connectedClient).2
  = [TransportWrite 1%nat (mkCommand 2 MethodTypePublish (Some []));
     Go (GoRequestTimer 2)].
Proof. vm_compute. done. Qed.

(** C1 at the failing input: the reply to command 2 arrives as its read
    timeout fires.  The reader and the timer goroutine each find the entry
    before either has removed it, and the callback is invoked twice: with
    the reply, and with ErrTimeout. *)
Theorem reply_races_timeout :
  exists final,
    steps (mkSystem publishingClient [ReaderLookup publishReply; TimerSelect 2] []) final /\
    pool final = [Finished; Finished] /\
    requests (shared final) = ∅ /\
    trace final = [Invoke 2 CbPublish publishReply None;
                   Invoke 2 CbPublish emptyReply (Some ErrTimeout)] /\
    invocations 2 (trace final) = 2%nat.
Proof.
  eexists. split.
  - eapply rtc_l.
    { apply (step_goroutine [] _ [TimerSelect 2]). by apply g_reader_lookup. }
    eapply rtc_l.
    { apply (step_goroutine [ReaderCall _ _] _ []). apply g_timer_timeout. }
    eapply rtc_l.
    { apply (step_goroutine [ReaderCall _ _] _ []).
      apply (g_timer_lookup_found _ _ (mkRequest (Some CbPublish))). by vm_compute. }
    eapply rtc_l.
    { apply (step_goroutine [] _ [TimerCall _ _ _]). apply g_reader_call. }
    eapply rtc_l.
    { apply (step_goroutine [ReaderRemove _] _ []). apply g_timer_call. }
    eapply rtc_l.
    { apply (step_goroutine [] _ [TimerRemove _]). apply g_reader_remove. }
    eapply rtc_l.
    { apply (step_goroutine [Finished] _ []). apply g_timer_remove. }
    apply rtc_refl.
  - vm_compute. done.
Qed.

(** ** The request registry: at least once under every interleaving *)

Lemma invocations_app (uid : N) (a b : list effect) :
  invocations uid (a ++ b) = (invocations uid a + invocations uid b)%nat.
Proof. unfold invocations. by rewrite List.filter_app, length_app. Qed.







Lemma removeRequest_lookup (uid uid' : N) (c : Client) :
  requests (removeRequest uid' c) !! uid
  = if decide (uid' = uid) then None else requests c !! uid.
Proof. unfold removeRequest. cbn. apply lookup_delete. Qed.







(** ** The request registry: exactly once without interleaving *)

Lemma drainEffects_omap (reqs : gmap N request) :
  drainEffects reqs = omap drainOne (map_to_list reqs).
Proof. reflexivity. Qed.

Lemma drain_count_absent (uid : N) (l : list (N * request)) :
  uid ∉ l.*1 -> invocations uid (omap drainOne l) = 0%nat.
Proof.
  induction l as [|[u r] l IH]; [done|].
  cbn [fmap list_fmap fst]. rewrite not_elem_of_cons. intros [Hne Hl].
  cbn [omap list_omap drainOne]. destruct (cb r) as [k|]; cbn [fmap option_fmap option_map].
  - unfold invocations in *. cbn [List.filter is_invoke].
    rewrite bool_decide_eq_false_2 by congruence. by apply IH.
  - by apply IH.
Qed.

Lemma drain_count_present (uid : N) (l : list (N * request)) (req : request) :
  NoDup l.*1 -> (uid, req) ∈ l ->
  invocations uid (omap drainOne l) = match cb req with Some _ => 1%nat | None => 0%nat end.
Proof.
  induction l as [|[u r] l IH]; intros Hnd Hin; [by apply elem_of_nil in Hin|].
  cbn [fmap list_fmap fst] in Hnd. apply NoDup_cons in Hnd as [Hu Hnd].
  apply elem_of_cons in Hin as [Heq|Hin].
  - inversion Heq; subst u r. cbn [omap list_omap drainOne].
    pose proof (drain_count_absent uid l Hu) as H0.
    destruct (cb req) as [k|]; cbn [fmap option_fmap option_map]; [|done].
    unfold invocations in *. cbn [List.filter is_invoke].
    rewrite bool_decide_eq_true_2 by done. cbn. by rewrite H0.
  - assert (Hne : u <> uid).
    { intros ->. apply Hu. apply list_elem_of_fmap. by exists (uid, req). }
    cbn [omap list_omap drainOne].
    destruct (cb r) as [k|]; cbn [fmap option_fmap option_map]; [|by apply IH].
    unfold invocations in *. cbn [List.filter is_invoke].
    rewrite bool_decide_eq_false_2 by done. by apply IH.
Qed.

Lemma drainEffects_count (uid : N) (reqs : gmap N request) :
  invocations uid (drainEffects reqs)
  = match reqs !! uid with
    | Some req => match cb req with Some _ => 1%nat | None => 0%nat end
    | None => 0%nat
    end.
Proof.
  rewrite drainEffects_omap. destruct (reqs !! uid) as [req|] eqn:E.
  - apply drain_count_present; [apply NoDup_fst_map_to_list|].
    by apply elem_of_map_to_list.
  - apply drain_count_absent. intros Hin.
    apply list_elem_of_fmap in Hin as ([u r] & -> & Hin).
    apply elem_of_map_to_list in Hin. cbn in E. congruence.
Qed.

Lemma invocations_triggers (uid : N) (unsubs : list (string * Subscription)) :
  invocations uid ((fun '(ch, _) => TriggerOnUnsubscribe ch) <$> unsubs) = 0%nat.
Proof. induction unsubs as [|[ch s] l IH]; [done|]. exact IH. Qed.

Lemma handleDisconnect_count (uid : N) (d : option disconnect) (c : Client) :
  invocations uid (handleDisconnect d c).2
  = if bool_decide (status c = DISCONNECTED \/ status c = CLOSED) then 0%nat
    else invocations uid (drainEffects (requests c)).
Proof.
  unfold handleDisconnect. case_bool_decide; [done|].
  unfold disconnectCalls. cbn -[invocations drainEffects closeTransport].
  rewrite !invocations_app, invocations_triggers.
  assert (H1 : invocations uid (closeTransport c) = 0%nat).
  { unfold closeTransport. by destruct (transport c). }
  rewrite H1. destruct (onDisconnect _ && _); cbn; lia.
Qed.

Lemma handleDisconnect_requests (d : option disconnect) (c : Client) :
  requests (handleDisconnect d c).1
  = if bool_decide (status c = DISCONNECTED \/ status c = CLOSED) then requests c else ∅.
Proof.
  unfold handleDisconnect. case_bool_decide; [done|].
  unfold disconnectCalls. cbn. by destruct (Reconnect _).
Qed.

Lemma replyEffects_count (uid : N) (reply : Reply) (found : option request) :
  invocations uid (replyEffects reply found)
  = match found with
    | Some req =>
        match cb req with
        | Some _ => if bool_decide (reply_ID reply = uid) then 1%nat else 0%nat
        | None => 0%nat
        end
    | None => 0%nat
    end.
Proof.
  unfold replyEffects. destruct found as [req|]; [|done].
  destruct (cb req); [|done]. unfold invocations. cbn.
  by case_bool_decide.
Qed.

Lemma timerEffects_count (uid uid' : N) (why : error) (req : request) :
  invocations uid (timerEffects why uid' req)
  = match cb req with
    | Some _ => if bool_decide (uid' = uid) then 1%nat else 0%nat
    | None => 0%nat
    end.
Proof.
  unfold timerEffects. destruct (cb req); [|done]. unfold invocations. cbn.
  by case_bool_decide.
Qed.

Lemma handleError_count (uid : N) (e : error) (c : Client) :
  invocations uid (handleError e c) = 0%nat.
Proof. unfold handleError. by destruct (onError _). Qed.

Lemma runPath_absent (uid : N) (p : path) (c : Client) :
  requests c !! uid = None ->
  requests (runPath p c).1 !! uid = None /\ invocations uid (runPath p c).2 = 0%nat.
Proof.
  intros Habs. destruct p as [reply|why u|d]; cbn [runPath].
  - unfold handle. case_bool_decide; cbn [fst snd].
    + rewrite removeRequest_lookup, replyEffects_count. split; [by case_decide|].
      destruct (requests c !! reply_ID reply) as [req|] eqn:E; [|done].
      destruct (cb req); [|done]. case_bool_decide; [congruence|done].
    + split; [done|]. apply handleError_count.
  - unfold requestTimer.
    destruct (requests c !! u) as [req|] eqn:E; cbn [fst snd];
      rewrite removeRequest_lookup; (split; [by case_decide|]); [|done].
    rewrite timerEffects_count. destruct (cb req); [|done].
    case_bool_decide; [congruence|done].
  - rewrite handleDisconnect_requests, handleDisconnect_count, drainEffects_count, Habs.
    case_bool_decide; by rewrite ?lookup_empty.
Qed.

Lemma runPath_present (uid : N) (p : path) (c : Client) (req : request) :
  requests c !! uid = Some req -> is_Some (cb req) ->
  (requests (runPath p c).1 !! uid = Some req /\
   invocations uid (runPath p c).2 = 0%nat /\
   forall why, p <> PathTimer why uid) \/
  (requests (runPath p c).1 !! uid = None /\
   invocations uid (runPath p c).2 = 1%nat).
Proof.
  intros Hreq [k Hk]. destruct p as [reply|why u|d]; cbn [runPath].
  - unfold handle. case_bool_decide; cbn [fst snd].
    + rewrite removeRequest_lookup, replyEffects_count.
      destruct (decide (reply_ID reply = uid)) as [Heq|Hne].
      * right. split; [done|]. rewrite Heq, Hreq, Hk. by rewrite bool_decide_eq_true_2.
      * left. split; [done|]. split; [|done].
        destruct (requests c !! reply_ID reply) as [r|]; [|done].
        destruct (cb r); [|done]. by rewrite bool_decide_eq_false_2.
    + left. split; [done|]. split; [apply handleError_count|done].
  - unfold requestTimer. destruct (decide (u = uid)) as [->|Hne].
    + right. rewrite Hreq. cbn [fst snd]. rewrite removeRequest_lookup, timerEffects_count, Hk.
      rewrite decide_True by done. by rewrite bool_decide_eq_true_2.
    + left. destruct (requests c !! u) as [r|]; cbn [fst snd];
        rewrite removeRequest_lookup, decide_False by done;
        (split; [done|]); (split; [|congruence]); [|done].
      rewrite timerEffects_count. destruct (cb r); [|done].
      by rewrite bool_decide_eq_false_2.
  - rewrite handleDisconnect_requests, handleDisconnect_count, drainEffects_count, Hreq, Hk.
    case_bool_decide; [left|right]; by rewrite ?lookup_empty.
Qed.

Lemma runPaths_absent (uid : N) (ps : list path) (c : Client) :
  requests c !! uid = None ->
  requests (runPaths ps c).1 !! uid = None /\ invocations uid (runPaths ps c).2 = 0%nat.
Proof.
  revert c. induction ps as [|p ps IH]; intros c Habs; [done|].
  cbn [runPaths]. destruct (runPath_absent uid p c Habs) as [H1 H2].
  destruct (runPath p c) as [c1 effs1]. cbn [fst snd] in *.
  destruct (IH c1 H1) as [H3 H4].
  destruct (runPaths ps c1) as [c2 effs2]. cbn [fst snd] in *.
  split; [done|]. rewrite invocations_app. lia.
Qed.

(** Run one at a time, the paths invoke the callback of a registered
    command at most once, and exactly once when its timer goroutine is
    among them; the first path that finds the entry removes it, and the
    later ones invoke nothing. *)
Lemma registry_exactly_once_sequential (uid : N) (ps : list path) (c : Client)
    (req : request) :
  requests c !! uid = Some req -> is_Some (cb req) ->
  (invocations uid (runPaths ps c).2 <= 1)%nat /\
  ((exists why, PathTimer why uid ∈ ps) ->
   invocations uid (runPaths ps c).2 = 1%nat /\
   requests (runPaths ps c).1 !! uid = None).
Proof.
  revert c. induction ps as [|p ps IH]; intros c Hreq Hcb.
  - split; [cbn; lia|]. intros [why Hin]. by apply elem_of_nil in Hin.
  - cbn [runPaths].
    destruct (runPath_present uid p c req Hreq Hcb) as [(H1 & H2 & H3)|(H1 & H2)];
      destruct (runPath p c) as [c1 effs1]; cbn [fst snd] in *.
    + destruct (IH c1 H1 Hcb) as [H4 H5].
      destruct (runPaths ps c1) as [c2 effs2]. cbn [fst snd] in *.
      rewrite invocations_app, H2. split; [lia|].
      intros [why Hin]. apply elem_of_cons in Hin as [Heq|Hin]; [by destruct (H3 why)|].
      apply H5. by exists why.
    + destruct (runPaths_absent uid ps c1 H1) as [H4 H5].
      destruct (runPaths ps c1) as [c2 effs2]. cbn [fst snd] in *.
      rewrite invocations_app, H2, H5. split; [lia|]. intros _. split; [lia|done].
Qed.

(** * Further properties *)

(** ** Invariants of all histories *)

Ltac unfold_calls :=
  unfold sendPing, sendRefresh, unsubscribe, readOnce, reconnectTurn in *;
  unfold sendUnsubscribe, subscribed in *;
  unfold_ops.

Lemma freshClient_client_inv : client_inv freshClient.
Proof.
  split; [apply freshClient_session_inv|]. split; [done|]. reflexivity.
Qed.

Lemma exec_reconnect_flag (enc : Params -> error + Raw) (o : op) (c : Client) :
  (active c -> reconnect c = true) ->
  active (exec enc o c) -> reconnect (exec enc o c) = true.
Proof.
  unfold active. intros Hinv.
  destruct o; cbn [exec]; unfold_ops; split_ops; intuition congruence.
Qed.

Lemma exec_msgID_range (enc : Params -> error + Raw) (o : op) (c : Client) :
  msgID c < uint32_modulus -> msgID (exec enc o c) < uint32_modulus.
Proof.
  intros Hinv.
  assert (Hm : forall n, (n + 1) mod uint32_modulus < uint32_modulus).
  { intros n. by apply N.mod_lt. }
  destruct o; cbn [exec]; unfold_ops; split_ops; try done; apply Hm.
Qed.

Lemma exec_client_inv (enc : Params -> error + Raw) (o : op) (c : Client) :
  client_inv c -> client_inv (exec enc o c).
Proof.
  intros (Hs & Hr & Hm). split; [by apply exec_session_inv|].
  split; [by apply exec_reconnect_flag|by apply exec_msgID_range].
Qed.

Lemma perform_client_inv (enc : Params -> error + Raw) (k : call) (c : Client) :
  client_inv c -> client_inv (perform enc k c).
Proof.
  destruct k as [o| | | | |]; [apply exec_client_inv|..];
    intros ((Ht & Hc) & Hr & Hm); unfold client_inv, session_inv, active in *;
    assert (Hmod : forall n, (n + 1) mod uint32_modulus < uint32_modulus)
      by (intros n; by apply N.mod_lt);
    cbn [perform]; unfold_calls; split_ops;
    (split; [split; [intros [?|?]|split; intros ?]|split; [intros [?|[?|?]]|]]);
    try done; try apply Hmod; intuition congruence.
Qed.

Lemma performAll_client_inv (enc : Params -> error + Raw) (ks : list call) (c : Client) :
  client_inv c -> client_inv (performAll enc ks c).
Proof.
  revert c. induction ks as [|k ks IH]; intros c Hc; [done|].
  cbn. apply IH. by apply perform_client_inv.
Qed.

(** X1: in every state that a new client reaches by any history of calls,
    there is no transport unless a session is being set up or alive, the
    shutdown channel is closed exactly when the status is CLOSED, the
    reconnect flag is set whenever the status is CONNECTING, CONNECTED or
    RECONNECTING, and the command-ID counter is below 2^32. *)
Theorem reachable_client_inv (enc : Params -> error + Raw) (ks : list call) :
  let c := performAll enc ks freshClient in
  (status c = DISCONNECTED \/ status c = CLOSED -> transport c = None) /\
  (closeCh c = true <-> status c = CLOSED) /\
  (status c = CONNECTING \/ status c = CONNECTED \/ status c = RECONNECTING ->
   reconnect c = true) /\
  msgID c < uint32_modulus.
Proof.
  destruct (performAll_client_inv enc ks freshClient freshClient_client_inv)
    as ((H1 & H2) & H3 & H4).
  done.
Qed.

Lemma perform_closed (enc : Params -> error + Raw) (k : call) (c : Client) :
  status c = CLOSED -> status (perform enc k c) = CLOSED.
Proof.
  intros Hs. destruct k as [o| | | | |]; [destruct o|..];
    cbn [perform exec]; unfold_calls; split_ops; try done; intuition congruence.
Qed.

Lemma performAll_closed (enc : Params -> error + Raw) (ks : list call) (c : Client) :
  status c = CLOSED -> status (performAll enc ks c) = CLOSED.
Proof.
  revert c. induction ks as [|k ks IH]; intros c Hc; [done|].
  cbn. apply IH. by apply perform_closed.
Qed.

(** X2: CLOSED is terminal.  Whatever the history before [Close] and
    whatever calls follow it (connect, connect replies, frames read,
    reconnect turns, disconnects), the status stays CLOSED. *)
Theorem closed_is_terminal (enc : Params -> error + Raw) (before after : list call) :
  let c := (Close (performAll enc before freshClient)).1.1 in
  status c = CLOSED /\ status (performAll enc after c) = CLOSED.
Proof.
  intros c.
  assert (Hs : status c = CLOSED).
  { apply Close_status.
    apply (performAll_client_inv enc before freshClient freshClient_client_inv). }
  split; [done|]. by apply performAll_closed.
Qed.

(** ** Disconnect and close, continued *)

Lemma drainEffects_no_panic (reqs : gmap N request) :
  forallb (fun e => negb (is_panic e)) (drainEffects reqs) = true.
Proof.
  unfold drainEffects. induction (map_to_list reqs) as [|[u r] l IH]; [done|].
  cbn. destruct (cb r); cbn; exact IH.
Qed.

Lemma triggers_no_panic (unsubs : list (string * Subscription)) :
  forallb (fun e => negb (is_panic e))
    ((fun '(ch, _) => TriggerOnUnsubscribe ch) <$> unsubs) = true.
Proof. induction unsubs as [|[ch s] l IH]; [done|]. exact IH. Qed.

Lemma handleDisconnect_no_panic (d : option disconnect) (c : Client) :
  forallb (fun e => negb (is_panic e)) (handleDisconnect d c).2 = true.
Proof.
  unfold handleDisconnect. case_bool_decide; [done|].
  unfold disconnectCalls. cbn -[drainEffects].
  rewrite !forallb_app, drainEffects_no_panic, triggers_no_panic.
  unfold closeTransport. destruct (transport c); destruct (onDisconnect _ && _); done.
Qed.

(** X3: from every state that a new client reaches, [Close] does not
    panic (the shutdown channel is never closed twice) and ends in the
    status CLOSED with the shutdown channel closed and no transport. *)
Theorem Close_never_panics (enc : Params -> error + Raw) (ks : list call) :
  let c := performAll enc ks freshClient in
  forallb (fun e => negb (is_panic e)) (Close c).1.2 = true /\
  status (Close c).1.1 = CLOSED /\ closeCh (Close c).1.1 = true /\
  transport (Close c).1.1 = None.
Proof.
  intros c.
  destruct (performAll_client_inv enc ks freshClient freshClient_client_inv)
    as ((Ht & Hc) & Hrest). fold c in Ht, Hc.
  destruct (Close_status c (conj Ht Hc)) as [Hs Htr].
  split; [|split; [done|split; [|done]]].
  - destruct (decide (status c = CLOSED)) as [Hcl|Hop].
    + by rewrite Close_closed_eq.
    + assert (Hopen : closeCh c = false).
      { destruct (closeCh c) eqn:E; [|done]. destruct Hop. by apply Hc. }
      destruct (Close_open c Hop Hopen) as (_ & _ & _ & ->).
      rewrite forallb_app. cbn. rewrite andb_true_r.
      unfold Disconnect, disconnect_.
      pose proof (handleDisconnect_no_panic
                    (Some (mkDisconnect "clean disconnect" false))
                    (set_reconnect false c)) as Hp.
      by destruct (handleDisconnect _ _).
  - pose proof (exec_session_inv enc OpClose c (conj Ht Hc)) as [_ Hc'].
    cbn [exec] in Hc'. by apply Hc'.
Qed.

Lemma Disconnect_inactive (c : Client) :
  status (Disconnect c).1.1 = DISCONNECTED \/ status (Disconnect c).1.1 = CLOSED.
Proof.
  unfold Disconnect, disconnect_.
  pose proof (handleDisconnect_status (Some (mkDisconnect "clean disconnect" false))
                (set_reconnect false c)) as Hs.
  assert (Hnr : status (handleDisconnect (Some (mkDisconnect "clean disconnect" false))
                          (set_reconnect false c)).1 <> RECONNECTING).
  { unfold handleDisconnect, disconnectCalls, disconnectLocked.
    case_bool_decide as H; cbn; [|done]. intros Hr. cbn in *.
    destruct H as [H|H]; congruence. }
  destruct (handleDisconnect _ _) as [c2 effs]. cbn in *. tauto.
Qed.

(** X4: [Disconnect] always ends in DISCONNECTED, or in CLOSED when the
    client was closed, never in RECONNECTING; a second [Disconnect] then
    returns nil, changes nothing and performs nothing. *)
Theorem Disconnect_twice (c : Client) :
  (status (Disconnect c).1.1 = DISCONNECTED \/ status (Disconnect c).1.1 = CLOSED) /\
  Disconnect (Disconnect c).1.1 = ((Disconnect c).1.1, [], None).
Proof. split; [apply Disconnect_inactive|apply Disconnect_idempotent]. Qed.

(** Setting the recover flag over a snapshot sets it in the entries of the
    snapshot. *)
Lemma setRecover_lookup (r : bool) (l : list (string * Subscription))
    (m : gmap string Subscription) (ch : string) :
  setRecover r l m !! ch
  = if bool_decide (ch ∈ l.*1) then set_sub_recover r <$> m !! ch else m !! ch.
Proof.
  induction l as [|[k s] l IH]; [done|].
  cbn [setRecover foldr fmap list_fmap fst]. fold (setRecover r l m).
  destruct (decide (k = ch)) as [->|Hne].
  - rewrite lookup_alter_eq, IH.
    rewrite (bool_decide_eq_true_2 (ch ∈ ch :: l.*1)) by apply list_elem_of_here.
    case_bool_decide; [|done].
    destruct (m !! ch) as [x|]; [|done]. by destruct x.
  - rewrite lookup_alter_ne by done. rewrite IH.
    rewrite (bool_decide_ext (ch ∈ k :: l.*1) (ch ∈ l.*1)); [done|].
    rewrite elem_of_cons. split; [intros [?|?]; [congruence|done]|by right].
Qed.

Lemma setRecover_snapshot (r : bool) (m : gmap string Subscription) :
  setRecover r (map_to_list m) m = set_sub_recover r <$> m.
Proof.
  apply map_eq. intros ch. rewrite setRecover_lookup, lookup_fmap.
  case_bool_decide as H; [done|].
  destruct (m !! ch) as [s|] eqn:E; [|done].
  destruct H. apply list_elem_of_fmap. exists (ch, s). split; [done|].
  by apply elem_of_map_to_list.
Qed.

Lemma drainEffects_no_onDisconnect (reqs : gmap N request) :
  existsb is_onDisconnect (drainEffects reqs) = false.
Proof.
  unfold drainEffects. induction (map_to_list reqs) as [|[u r] l IH]; [done|].
  cbn. destruct (cb r); cbn; exact IH.
Qed.

Lemma triggers_no_onDisconnect (unsubs : list (string * Subscription)) :
  existsb is_onDisconnect ((fun '(ch, _) => TriggerOnUnsubscribe ch) <$> unsubs) = false.
Proof. induction unsubs as [|[ch s] l IH]; [done|]. exact IH. Qed.

Lemma handleDisconnect_post (d : option disconnect) (c : Client) :
  ~ (status c = DISCONNECTED \/ status c = CLOSED) ->
  let r := Reconnect (default (mkDisconnect "connection closed" true) d) in
  let c' := (handleDisconnect d c).1 in
  status c' = (if r then RECONNECTING else DISCONNECTED) /\
  reconnect c' = r /\
  reconnectCh c' = r || reconnectCh c /\
  transport c' = None /\
  requests c' = ∅ /\
  subs c' = set_sub_recover r <$> subs c /\
  serverSubs c' = serverSubs c /\
  id c' = id c /\ token c' = token c /\ msgID c' = msgID c /\
  closeCh c' = closeCh c /\
  existsb is_onDisconnect (handleDisconnect d c).2
  = onDisconnect (events c) && bool_decide (status c = CONNECTING \/ status c = CONNECTED).
Proof.
  intros Hact r c'. subst r c'. unfold handleDisconnect.
  rewrite bool_decide_eq_false_2 by done.
  unfold disconnectCalls, disconnectLocked.
  set (d' := default _ d).
  cbn -[drainEffects setRecover]. rewrite setRecover_snapshot.
  rewrite !existsb_app, drainEffects_no_onDisconnect, triggers_no_onDisconnect.
  assert (Hct : existsb is_onDisconnect (closeTransport c) = false).
  { unfold closeTransport. by destruct (transport c). }
  rewrite Hct. cbn.
  destruct (Reconnect d'); cbn;
    (repeat split; try done);
    by destruct (onDisconnect (events c) && _).
Qed.

(** X5: [handleDisconnect] on a client that is CONNECTING, CONNECTED or
    RECONNECTING (a nil advice counts as reconnect): the status becomes
    RECONNECTING or DISCONNECTED by the reconnect advice, which is also
    stored as the reconnect flag and, when set, signalled to the reconnect
    routine; the transport is dropped and the registry emptied; every
    Subscription gets the advice as its recover flag; server-side
    subscriptions, identifier, token, counter and shutdown channel are
    untouched; OnDisconnect fires exactly when a handler is registered and
    the status was CONNECTING or CONNECTED. *)
Theorem handleDisconnect_active (d : option disconnect) (c : Client) :
  ~ (status c = DISCONNECTED \/ status c = CLOSED) ->
  let r := Reconnect (default (mkDisconnect "connection closed" true) d) in
  let c' := (handleDisconnect d c).1 in
  status c' = (if r then RECONNECTING else DISCONNECTED) /\
  reconnect c' = r /\
  reconnectCh c' = r || reconnectCh c /\
  transport c' = None /\
  requests c' = ∅ /\
  subs c' = set_sub_recover r <$> subs c /\
  serverSubs c' = serverSubs c /\
  id c' = id c /\ token c' = token c /\ msgID c' = msgID c /\
  closeCh c' = closeCh c /\
  existsb is_onDisconnect (handleDisconnect d c).2
  = onDisconnect (events c) && bool_decide (status c = CONNECTING \/ status c = CONNECTED).
Proof. apply handleDisconnect_post. Qed.

Lemma handleDisconnect_active_witness :
  ~ (status connectedClient = DISCONNECTED \/ status connectedClient = CLOSED) /\
  status (handleDisconnect None connectedClient).1 = RECONNECTING /\
  transport (handleDisconnect None connectedClient).1 = None.
Proof.
  assert (H : ~ (status connectedClient = DISCONNECTED
                 \/ status connectedClient = CLOSED)).
  { vm_compute. intros [?|?]; discriminate. }
  split; [exact H|].
  destruct (handleDisconnect_active None connectedClient H)
    as (H1 & _ & _ & H4 & _).
  split; [exact H1|exact H4].
Defined.

Lemma Client_eq (a b : Client) :
  token a = token b -> connectData a = connectData b -> transport a = transport b ->
  msgID a = msgID b -> status a = status b -> id a = id b -> subs a = subs b ->
  serverSubs a = serverSubs b -> requests a = requests b -> reconnect a = reconnect b ->
  reconnectAttempts a = reconnectAttempts b -> events a = events b ->
  reconnectCh a = reconnectCh b -> closeCh a = closeCh b -> a = b.
Proof. destruct a, b; cbn; intros; by subst. Qed.

Lemma set_sub_recover_idemp (r : bool) (m : gmap string Subscription) :
  set_sub_recover r <$> (set_sub_recover r <$> m) = set_sub_recover r <$> m.
Proof.
  apply map_eq. intros ch. rewrite !lookup_fmap. by destruct (m !! ch).
Qed.

Lemma handleDisconnect_frame (d : option disconnect) (c : Client) :
  connectData (handleDisconnect d c).1 = connectData c /\
  reconnectAttempts (handleDisconnect d c).1 = reconnectAttempts c /\
  events (handleDisconnect d c).1 = events c.
Proof.
  unfold handleDisconnect. case_bool_decide; [done|].
  unfold disconnectCalls, disconnectLocked. by destruct (Reconnect _).
Qed.

(** X6: a second [handleDisconnect] with reconnect advice, on the
    RECONNECTING client that the first one left, changes no field of the
    client and fires no OnDisconnect, but it is not a no-op: it calls
    [triggerOnUnsubscribe] of every Subscription once more, and nothing
    else. *)
Theorem handleDisconnect_reconnect_repeat (d : option disconnect) (c : Client) :
  ~ (status c = DISCONNECTED \/ status c = CLOSED) ->
  Reconnect (default (mkDisconnect "connection closed" true) d) = true ->
  let c1 := (handleDisconnect d c).1 in
  (handleDisconnect d c1).1 = c1 /\
  (handleDisconnect d c1).2
  = (fun '(ch, _) => TriggerOnUnsubscribe ch) <$> map_to_list (subs c1).
Proof.
  intros Hact Hr c1.
  destruct (handleDisconnect_post d c Hact)
    as (H1 & H2 & H3 & H4 & H5 & H6 & H7 & H8 & H9 & H10 & H11 & _).
  fold c1 in H1, H2, H3, H4, H5, H6, H7, H8, H9, H10, H11. rewrite Hr in *. cbn in H3.
  assert (Hact1 : ~ (status c1 = DISCONNECTED \/ status c1 = CLOSED)).
  { rewrite H1. intros [?|?]; congruence. }
  split.
  - destruct (handleDisconnect_post d c1 Hact1)
      as (J1 & J2 & J3 & J4 & J5 & J6 & J7 & J8 & J9 & J10 & J11 & _).
    rewrite Hr in *. cbn in J3.
    destruct (handleDisconnect_frame d c1) as (K1 & K2 & K3).
    apply Client_eq; try congruence.
    rewrite J6, H6. apply set_sub_recover_idemp.
  - unfold handleDisconnect. rewrite bool_decide_eq_false_2 by done.
    unfold disconnectCalls. cbn -[drainEffects setRecover].
    unfold closeTransport. rewrite H4, H5. unfold drainEffects. rewrite map_to_list_empty.
    cbn. rewrite (bool_decide_eq_false_2 (status c1 = CONNECTING \/ status c1 = CONNECTED)).
    + rewrite andb_false_r. by rewrite app_nil_r.
    + rewrite H1. intros [?|?]; congruence.
Qed.

Lemma handleDisconnect_reconnect_repeat_witness :
  (handleDisconnect None (handleDisconnect None connectedClient).1).1
  = (handleDisconnect None connectedClient).1.
Proof.
  apply (handleDisconnect_reconnect_repeat None connectedClient).
  - vm_compute. intros [?|?]; discriminate.
  - reflexivity.
Defined.

(** ** The request registry, continued *)

Lemma handleDisconnect_invokes (d : option disconnect) (c : Client) (uid : N)
    (k : callback) (r : Reply) (err : option error) :
  Invoke uid k r err ∈ (handleDisconnect d c).2 ->
  r = emptyReply /\ err = Some ErrClientDisconnected /\
  requests c !! uid = Some (mkRequest (Some k)).
Proof.
  unfold handleDisconnect. case_bool_decide; [by intros ?%elem_of_nil|].
  unfold disconnectCalls. cbn -[drainEffects].
  rewrite !elem_of_app. intros [Hin|[Hin|[Hin|Hin]]].
  - unfold closeTransport in Hin. destruct (transport c); [|by apply elem_of_nil in Hin].
    apply list_elem_of_singleton in Hin. done.
  - unfold drainEffects in Hin. apply list_elem_of_omap in Hin as ([u req] & Hin & Hone).
    apply elem_of_map_to_list in Hin. cbn in Hone.
    destruct req as [[k'|]]; cbn in Hone; [|done].
    inversion Hone; subst. done.
  - apply list_elem_of_fmap in Hin as ([ch s] & Heq & _). done.
  - destruct (onDisconnect _ && _); [|by apply elem_of_nil in Hin].
    apply list_elem_of_singleton in Hin. done.
Qed.

(** X7: [handleDisconnect] on a client with a session empties the
    registry and calls the callback of every drained entry exactly once
    (an entry with a nil callback not at all); each such call carries the
    empty reply and ErrClientDisconnected, and nothing is called that was
    not registered. *)
Theorem handleDisconnect_drains (d : option disconnect) (c : Client) (uid : N) :
  ~ (status c = DISCONNECTED \/ status c = CLOSED) ->
  requests (handleDisconnect d c).1 = ∅ /\
  invocations uid (handleDisconnect d c).2
  = match requests c !! uid with
    | Some req => match cb req with Some _ => 1%nat | None => 0%nat end
    | None => 0%nat
    end /\
  forall k r err,
    Invoke uid k r err ∈ (handleDisconnect d c).2 ->
    r = emptyReply /\ err = Some ErrClientDisconnected /\
    requests c !! uid = Some (mkRequest (Some k)).
Proof.
  intros Hact. split; [|split].
  - rewrite handleDisconnect_requests. by rewrite bool_decide_eq_false_2.
  - rewrite handleDisconnect_count, bool_decide_eq_false_2 by done.
    apply drainEffects_count.
  - intros k r err. apply handleDisconnect_invokes.
Qed.

Lemma handleDisconnect_drains_witness :
  requests (handleDisconnect None publishingClient).1 = ∅ /\
  invocations 2 (handleDisconnect None publishingClient).2 = 1%nat.
Proof.
  destruct (handleDisconnect_drains None publishingClient 2) as (H1 & H2 & _).
  - vm_compute. intros [?|?]; discriminate.
  - split; [exact H1|]. rewrite H2. reflexivity.
Defined.

Lemma removeRequest_absent (uid : N) (c : Client) :
  requests c !! uid = None -> removeRequest uid c = c.
Proof.
  intros H. unfold removeRequest. rewrite delete_id by done. by destruct c.
Qed.

(** X8: a reply whose ID is not in the registry (a late reply, after the
    timeout or a disconnect resolved the request) is dropped: [handle]
    calls nothing, changes nothing and returns nil. *)
Theorem handle_unknown_reply (reply : Reply) (push : option Push) (c : Client) :
  0 < reply_ID reply -> requests c !! reply_ID reply = None ->
  handle reply push c = (c, [], None).
Proof.
  intros Hpos Habs. unfold handle. rewrite bool_decide_eq_true_2 by done.
  rewrite Habs. cbn. by rewrite removeRequest_absent.
Qed.

Lemma handle_unknown_reply_witness :
  handle (mkReply 7 None []) None connectedClient = (connectedClient, [], None).
Proof.
  apply (handle_unknown_reply (mkReply 7 None []) None connectedClient).
  - reflexivity.
  - reflexivity.
Defined.

(** X9: when [transport.Write] fails in [sendPublish], [sendHistory],
    [sendPresence] or [sendPresenceStats], the caller's function gets
    io.EOF at once, but the request stays in the registry and no timer is
    started for it; the [handleDisconnect] that [send] started then calls
    the registered closure, once, with ErrClientDisconnected.  The caller
    is thus notified twice of one failure. *)
Theorem sendRequest_write_error (enc : Params -> error + Raw) (p : Params)
    (m : MethodType) (k : callback) (c : Client) (t : transport_t) (data : Raw) :
  transport c = Some t -> enc p = inr data ->
  ~ (status c = DISCONNECTED \/ status c = CLOSED) ->
  let uid := (nextMsgID c).1 in
  let c1 := (sendRequest enc false p m k c).1 in
  (sendRequest enc false p m k c).2
  = [TransportWrite t (mkCommand uid m (Some data));
     Go (GoHandleDisconnect (Some (mkDisconnect "write error" true)));
     Fn k (Some EOF)] /\
  requests c1 !! uid = Some (mkRequest (Some k)) /\
  Invoke uid k emptyReply (Some ErrClientDisconnected)
    ∈ (handleDisconnect (Some (mkDisconnect "write error" true)) c1).2 /\
  invocations uid (handleDisconnect (Some (mkDisconnect "write error" true)) c1).2 = 1%nat.
Proof.
  intros Ht He Hact uid c1. subst uid c1.
  unfold sendRequest, sendAsync, send. rewrite He.
  cbn -[handleDisconnect invocations]. rewrite Ht.
  cbn -[handleDisconnect invocations].
  set (c1 := addRequest _ _ _).
  assert (Hreq : requests c1 !! ((msgID c + 1) mod uint32_modulus)
                 = Some (mkRequest (Some k))).
  { subst c1. cbn. apply lookup_insert_eq. }
  assert (Hact1 : ~ (status c1 = DISCONNECTED \/ status c1 = CLOSED)) by done.
  split; [done|]. split; [done|]. split.
  - unfold handleDisconnect. rewrite bool_decide_eq_false_2 by done.
    unfold disconnectCalls. cbn -[drainEffects].
    rewrite !elem_of_app. right; left.
    unfold drainEffects. apply list_elem_of_omap.
    exists ((msgID c + 1) mod uint32_modulus, mkRequest (Some k)). split; [|done].
    by apply elem_of_map_to_list.
  - rewrite handleDisconnect_count, bool_decide_eq_false_2 by done.
    by rewrite drainEffects_count, Hreq.
Qed.

Lemma sendRequest_write_error_witness :
  (Publish nullEncoder false "test" [] connectedClient).2
  = [TransportWrite 1%nat (mkCommand 2 MethodTypePublish (Some []));
     Go (GoHandleDisconnect (Some (mkDisconnect "write error" true)));
     Fn CbPublish (Some EOF)] /\
  invocations 2
    (handleDisconnect (Some (mkDisconnect "write error" true))
       (Publish nullEncoder false "test" [] connectedClient).1).2 = 1%nat.
Proof.
  destruct (sendRequest_write_error nullEncoder (PPublish "test" [])
              MethodTypePublish CbPublish connectedClient 1%nat [])
    as (H1 & _ & _ & H4).
  - reflexivity.
  - reflexivity.
  - vm_compute. intros [?|?]; discriminate.
  - split; [exact H1|exact H4].
Defined.



(** X11: when the reader, the timer and [handleDisconnect] run one at a
    time, each to its end and in any order and number, the callback of a
    registered command is invoked at most once, and exactly once (the entry
    being gone afterwards) when the timer of the command is among them. *)
Theorem exactly_once_without_overlap (uid : N) (ps : list path) (c : Client)
    (req : request) :
  requests c !! uid = Some req -> is_Some (cb req) ->
  (invocations uid (runPaths ps c).2 <= 1)%nat /\
  ((exists why, PathTimer why uid ∈ ps) ->
   invocations uid (runPaths ps c).2 = 1%nat /\
   requests (runPaths ps c).1 !! uid = None).
Proof. apply registry_exactly_once_sequential. Qed.

Lemma exactly_once_without_overlap_witness :
  invocations 2
    (runPaths [PathReply publishReply; PathDisconnect None; PathTimer ErrTimeout 2]
       publishingClient).2 = 1%nat.
Proof.
  destruct (exactly_once_without_overlap 2
              [PathReply publishReply; PathDisconnect None; PathTimer ErrTimeout 2]
              publishingClient (mkRequest (Some CbPublish))) as [_ H].
  - reflexivity.
  - eexists. reflexivity.
  - destruct H as [H _]; [|exact H].
    exists ErrTimeout. apply list_elem_of_further, list_elem_of_further, list_elem_of_here.
Defined.

(** ** The command-ID counter, continued *)

Lemma allocate_length (n : nat) (c : Client) : length (allocate n c).1 = n.
Proof.
  revert c. induction n as [|n IH]; intros c; [done|].
  cbn [allocate]. destruct (nextMsgID c) as [v c1] eqn:E1.
  specialize (IH c1). destruct (allocate n c1) as [vs c2]. cbn in *. by rewrite IH.
Qed.

Lemma mod_add_inj (m i j : N) :
  i < uint32_modulus -> j < uint32_modulus ->
  (m + i + 1) mod uint32_modulus = (m + j + 1) mod uint32_modulus -> i = j.
Proof.
  intros Hi Hj Heq.
  pose proof (N.div_mod (m + i + 1) uint32_modulus ltac:(done)) as Ha.
  pose proof (N.div_mod (m + j + 1) uint32_modulus ltac:(done)) as Hb.
  rewrite Heq in Ha.
  set (qa := (m + i + 1) / uint32_modulus) in *.
  set (qb := (m + j + 1) / uint32_modulus) in *.
  set (r := (m + j + 1) mod uint32_modulus) in *.
  unfold uint32_modulus in *.
  assert (qa = qb) by nia. subst. lia.
Qed.

(** X12: up to 2^32 successive allocations of [nextMsgID] hand out
    pairwise distinct IDs, the i-th being the counter plus i + 1 modulo
    2^32: two commands in flight share an ID only after the counter has
    gone round. *)
Theorem allocate_NoDup (n : nat) (c : Client) :
  N.of_nat n <= uint32_modulus ->
  NoDup (allocate n c).1 /\
  forall i, (i < n)%nat ->
    (allocate n c).1 !! i = Some ((msgID c + N.of_nat i + 1) mod uint32_modulus).
Proof.
  intros Hn. split; [|intros i Hi; by apply allocate_lookup].
  apply NoDup_alt. intros i j x Hi Hj.
  assert (Hil : (i < n)%nat).
  { apply lookup_lt_Some in Hi. by rewrite allocate_length in Hi. }
  assert (Hjl : (j < n)%nat).
  { apply lookup_lt_Some in Hj. by rewrite allocate_length in Hj. }
  rewrite allocate_lookup in Hi by done. rewrite allocate_lookup in Hj by done.
  assert (Heq : N.of_nat i = N.of_nat j).
  { apply (mod_add_inj (msgID c)); [lia|lia|congruence]. }
  lia.
Qed.

Lemma allocate_NoDup_witness :
  NoDup (allocate 3 (set_msgID 4294967294 freshClient)).1 /\
  (allocate 3 (set_msgID 4294967294 freshClient)).1 = [4294967295; 0; 1].
Proof.
  destruct (allocate_NoDup 3 (set_msgID 4294967294 freshClient)) as [H _].
  - vm_compute. discriminate.
  - split; [exact H|reflexivity].
Defined.

(** ** Connecting and reconnecting *)

Lemma set_reconnectCh_same (c : Client) : set_reconnectCh (reconnectCh c) c = c.
Proof. by destruct c. Qed.

(** X13: after [Disconnect] the reconnect routine does not bring the
    client back.  A turn of the routine only consumes the pending signal
    (and reports a failing strategy), and [connectFromScratch] called for a
    reconnect returns without touching the client: nothing is dialled,
    written or counted. *)
Theorem Disconnect_cancels_reconnect (enc : Params -> error + Raw)
    (strategy : nat -> error + N) (dial : error + transport_t) (wr : bool) (c : Client) :
  let c1 := (Disconnect c).1.1 in
  let turn := reconnectTurn enc strategy dial wr c1 in
  turn.1.1 = set_reconnectCh false c1 /\
  (turn.1.2 = [] \/ turn.1.2 = [ReconnectWaitCB] \/
   exists e, strategy (reconnectAttempts c1) = inl e /\ turn.1.2 = handleError e c1) /\
  (connectFromScratch enc true dial wr c1).1 = (c1, [ReconnectWaitCB]).
Proof.
  intros c1 turn.
  assert (Hd : status c1 = DISCONNECTED \/ status c1 = CLOSED)
    by apply Disconnect_inactive.
  assert (Hnr : status c1 <> RECONNECTING) by (destruct Hd; congruence).
  split; [|split].
  - subst turn. unfold reconnectTurn.
    destruct (reconnectCh c1) eqn:Hch; cbn [negb].
    + destruct (strategy _) as [e|delay]; [done|].
      by rewrite bool_decide_eq_false_2.
    + cbn. by rewrite <- Hch, set_reconnectCh_same.
  - subst turn. unfold reconnectTurn.
    destruct (reconnectCh c1) eqn:Hch; cbn [negb]; [|auto].
    destruct (strategy _) as [e|delay] eqn:Hst.
    + right; right. by exists e.
    + rewrite bool_decide_eq_false_2 by done. auto.
  - unfold connectFromScratch. destruct Hd as [Hd|Hd]; rewrite Hd; done.
Qed.

(** X14: a connect reply, successful or not, that arrives after
    [Disconnect] or [Close] is ignored: the client stays as it is (no
    identifier, status or server-side subscription is taken from the
    reply) and only [reconnectWaitCB] runs. *)
Theorem late_connect_reply_ignored (isReconnect : bool) (arg : error + ConnectResult)
    (refresh : error + string) (resub : string -> option error) (c : Client) :
  connectReply isReconnect arg refresh resub (Disconnect c).1.1
  = ((Disconnect c).1.1, [ReconnectWaitCB]) /\
  connectReply isReconnect arg refresh resub (Close c).1.1
  = ((Close c).1.1, [ReconnectWaitCB]).
Proof.
  assert (H : forall c', status c' = DISCONNECTED \/ status c' = CLOSED ->
            connectReply isReconnect arg refresh resub c' = (c', [ReconnectWaitCB])).
  { intros c' Hs. unfold connectReply, connecting.
    rewrite bool_decide_eq_false_2; [done|]. intros [?|?]; destruct Hs; congruence. }
  split; apply H; [apply Disconnect_inactive|].
  unfold Close. pose proof (Disconnect_inactive c) as Hd.
  destruct (Disconnect c) as [[c1 effs] err]. cbn in Hd.
  case_bool_decide; [by right|]. destruct (closeCh c1); cbn; [done|by right].
Qed.

Lemma failedReconnect_step (enc : Params -> error + Raw) (strategy : nat -> error + N)
    (e : error) (c : Client) :
  (forall a, exists delay, strategy a = inr delay) ->
  status c = RECONNECTING -> reconnect c = true -> reconnectCh c = true ->
  let c' := failedReconnect enc strategy e c in
  status c' = RECONNECTING /\ reconnect c' = true /\ reconnectCh c' = true /\
  reconnectAttempts c' = S (reconnectAttempts c) /\
  transport c' = None /\ requests c' = ∅ /\
  id c' = id c /\ serverSubs c' = serverSubs c /\ msgID c' = msgID c.
Proof.
  intros Hst Hs Hr Hch c'. subst c'. unfold failedReconnect, reconnectTurn.
  rewrite Hch. cbn [negb]. destruct (Hst (reconnectAttempts (set_reconnectCh false c)))
    as [delay ->].
  rewrite bool_decide_eq_true_2 by done. cbn -[handleDisconnect connectFromScratch].
  rewrite Hr. cbn -[handleDisconnect connectFromScratch].
  unfold connectFromScratch. cbn -[handleDisconnect]. rewrite Hs.
  rewrite !bool_decide_eq_false_2 by done. cbn -[handleDisconnect].
  set (c1 := set_reconnect _ _).
  assert (Hact : ~ (status c1 = DISCONNECTED \/ status c1 = CLOSED)).
  { subst c1. cbn. intros [?|?]; congruence. }
  destruct (handleDisconnect_post (Some (mkDisconnect "connect error" true)) c1 Hact)
    as (H1 & H2 & H3 & H4 & H5 & _ & H7 & H8 & _ & H10 & _).
  cbn in H1, H2, H3.
  repeat split; done.
Qed.

Lemma failedReconnect_quiet (enc : Params -> error + Raw) (strategy : nat -> error + N)
    (e : error) (c : Client) :
  (forall a, exists delay, strategy a = inr delay) ->
  status c = RECONNECTING -> reconnect c = true -> reconnectCh c = true ->
  (reconnectTurn enc strategy (inl e) true c).1.2
  = [Go (GoHandleDisconnect (Some (mkDisconnect "connect error" true))); ReconnectWaitCB]
    ++ handleError e c /\
  existsb is_onDisconnect
    (handleDisconnect (Some (mkDisconnect "connect error" true))
       (reconnectTurn enc strategy (inl e) true c).1.1).2 = false.
Proof.
  intros Hst Hs Hr Hch. unfold reconnectTurn.
  rewrite Hch. cbn [negb]. destruct (Hst (reconnectAttempts (set_reconnectCh false c)))
    as [delay ->].
  rewrite bool_decide_eq_true_2 by done. cbn -[handleDisconnect connectFromScratch].
  rewrite Hr. cbn -[handleDisconnect connectFromScratch].
  unfold connectFromScratch. cbn -[handleDisconnect]. rewrite Hs.
  rewrite !bool_decide_eq_false_2 by done. cbn -[handleDisconnect].
  split; [done|].
  match goal with |- existsb _ (handleDisconnect _ ?x).2 = _ => set (c1 := x) end.
  assert (Hact : ~ (status c1 = DISCONNECTED \/ status c1 = CLOSED)).
  { subst c1. cbn. intros [?|?]; congruence. }
  destruct (handleDisconnect_post (Some (mkDisconnect "connect error" true)) c1 Hact)
    as (_ & _ & _ & _ & _ & _ & _ & _ & _ & _ & _ & ->).
  rewrite (bool_decide_eq_false_2 (status c1 = CONNECTING \/ status c1 = CONNECTED)).
  - apply andb_false_r.
  - subst c1. cbn. intros [?|?]; congruence.
Qed.

(** X15: n failed attempts of the reconnect routine in a row (the dial
    fails, and the [handleDisconnect] started for the connect error runs)
    leave the client RECONNECTING with the next signal pending, raise the
    attempt counter by exactly n, keep identifier, server-side
    subscriptions and command-ID counter, and never fire OnDisconnect. *)
Theorem failed_reconnects (enc : Params -> error + Raw) (strategy : nat -> error + N)
    (e : error) (n : nat) (c : Client) :
  (forall a, exists delay, strategy a = inr delay) ->
  status c = RECONNECTING -> reconnect c = true -> reconnectCh c = true ->
  let c' := Nat.iter n (failedReconnect enc strategy e) c in
  status c' = RECONNECTING /\ reconnect c' = true /\ reconnectCh c' = true /\
  reconnectAttempts c' = (n + reconnectAttempts c)%nat /\
  id c' = id c /\ serverSubs c' = serverSubs c /\ msgID c' = msgID c /\
  existsb is_onDisconnect
    (handleDisconnect (Some (mkDisconnect "connect error" true))
       (reconnectTurn enc strategy (inl e) true c').1.1).2 = false.
Proof.
  intros Hst Hs Hr Hch c'. subst c'.
  induction n as [|n IH].
  - cbn. repeat split; try done. by apply failedReconnect_quiet.
  - rewrite !Nat.iter_succ. destruct IH as (I1 & I2 & I3 & I4 & I5 & I6 & I7 & _).
    destruct (failedReconnect_step enc strategy e _ Hst I1 I2 I3)
      as (J1 & J2 & J3 & J4 & _ & _ & J7 & J8 & J9).
    split_and!; [done|done|done|rewrite J4, I4; lia|congruence|congruence|congruence|].
    by apply failedReconnect_quiet.
Qed.

Lemma failed_reconnects_witness :
  status lostClient = RECONNECTING /\
  reconnectAttempts
    (Nat.iter 2 (failedReconnect nullEncoder (fun _ => inr 500) ErrTransport) lostClient)
  = 2%nat.
Proof.
  split; [reflexivity|].
  destruct (failed_reconnects nullEncoder (fun _ => inr 500) ErrTransport 2 lostClient)
    as (_ & _ & _ & H & _).
  - intros a. eexists. reflexivity.
  - reflexivity.
  - reflexivity.
  - reflexivity.
  - rewrite H. reflexivity.
Defined.

(** X16: when the dial of [Connect] fails on a client that is not closed,
    [Connect] returns the dial error with the status at CONNECTING, the
    transport and the counter untouched; the [handleDisconnect] it started
    then moves the client to RECONNECTING without transport, signals the
    reconnect routine, and fires OnDisconnect exactly when a handler is
    registered. *)
Theorem connect_failure_enters_reconnect (enc : Params -> error + Raw) (e : error)
    (wr : bool) (c : Client) :
  status c <> CLOSED ->
  let c1 := (Connect enc (inl e) wr c).1.1 in
  let after := handleDisconnect (Some (mkDisconnect "connect error" true)) c1 in
  Connect enc (inl e) wr c
  = (c1, [Go (GoHandleDisconnect (Some (mkDisconnect "connect error" true)));
          ReconnectWaitCB], Some e) /\
  status c1 = CONNECTING /\ transport c1 = transport c /\ msgID c1 = msgID c /\
  status after.1 = RECONNECTING /\ reconnectCh after.1 = true /\
  transport after.1 = None /\
  existsb is_onDisconnect after.2 = onDisconnect (events c).
Proof.
  intros Hs c1 after.
  assert (Hc1 : Connect enc (inl e) wr c
                = (set_reconnect true (set_status CONNECTING c),
                   [Go (GoHandleDisconnect (Some (mkDisconnect "connect error" true)));
                    ReconnectWaitCB], Some e)).
  { unfold Connect, connectFromScratch. cbn [andb].
    by rewrite bool_decide_eq_false_2. }
  assert (Hc1' : c1 = set_reconnect true (set_status CONNECTING c))
    by (subst c1; by rewrite Hc1).
  split; [by rewrite Hc1'|]. split; [by rewrite Hc1'|]. split; [by rewrite Hc1'|].
  split; [by rewrite Hc1'|].
  assert (Hact : ~ (status c1 = DISCONNECTED \/ status c1 = CLOSED)).
  { rewrite Hc1'. cbn. intros [?|?]; congruence. }
  destruct (handleDisconnect_post (Some (mkDisconnect "connect error" true)) c1 Hact)
    as (H1 & _ & H3 & H4 & _ & _ & _ & _ & _ & _ & _ & H12).
  fold after in H1, H3, H4, H12. cbn in H1, H3.
  split; [done|]. split; [done|]. split; [done|].
  rewrite H12, Hc1'. cbn. rewrite bool_decide_eq_true_2 by (by left).
  apply andb_true_r.
Qed.

Lemma connect_failure_enters_reconnect_witness :
  status (handleDisconnect (Some (mkDisconnect "connect error" true))
            (Connect nullEncoder (inl ErrTransport) true freshClient).1.1).1
  = RECONNECTING.
Proof.
  destruct (connect_failure_enters_reconnect nullEncoder ErrTransport true freshClient)
    as (_ & _ & _ & _ & H & _).
  - discriminate.
  - exact H.
Defined.







(** X19: with a token or connect data set and at least one server-side
    subscription stored, the Connect request of a reconnect carries the
    token, the connect data and a recovery request, with Recover set and
    the stored epoch and offset, for exactly the recoverable server-side
    subscriptions. *)
Theorem reconnect_request_recovers (c : Client) :
  token c <> EmptyString \/ is_Some (connectData c) ->
  serverSubs c <> ∅ ->
  exists params reqs,
    connectParams true c = Some params /\
    cr_Token params = token c /\ cr_Data params = connectData c /\
    cr_Subs params = Some reqs /\
    forall channel,
      reqs !! channel =
        match serverSubs c !! channel with
        | Some s =>
            if ss_Recoverable s
            then Some (mkSubscribeRequest EmptyString EmptyString true 0 0
                         (ss_Epoch s) (ss_Offset s))
            else None
        | None => None
        end.
Proof. apply connectParams_recovery. Qed.

Lemma reconnect_request_recovers_witness :
  exists params reqs,
    connectParams true (SetToken "jwt" lostClient) = Some params /\
    cr_Subs params = Some reqs /\
    reqs !! "news" = Some (mkSubscribeRequest EmptyString EmptyString true 0 0 "e1" 5).
Proof.
  destruct (reconnect_request_recovers (SetToken "jwt" lostClient))
    as (params & reqs & H1 & _ & _ & H4 & H5).
  - left. discriminate.
  - vm_compute. discriminate.
  - exists params, reqs. split; [exact H1|]. split; [exact H4|].
    rewrite H5. reflexivity.
Defined.

(** ** Pushes *)



(** X21: an Unsub, Publication, Join or Leave push on a channel that has
    neither a client-side Subscription nor a server-side subscription is
    ignored: no handler fires and the client is unchanged. *)
Theorem push_unknown_channel_ignored (msg : Push) (channel : string) (c : Client) :
  pushChannel msg = Some channel ->
  subs c !! channel = None -> serverSubs c !! channel = None ->
  (handlePush msg c).1 = (c, []).
Proof.
  intros Hch Hs Hss.
  destruct msg as [m|ch [|]|ch [m|]|ch [|]|ch [|]|]; cbn in Hch; simplify_eq;
    cbn [handlePush]; rewrite ?Hs; try done;
    unfold handleServerUnsub, handleServerPublication, handleServerJoin, handleServerLeave;
    by rewrite Hss.
Qed.

Lemma push_unknown_channel_ignored_witness :
  (handlePush (PushJoin "other" true) connectedClient).1 = (connectedClient, []).
Proof.
  apply (push_unknown_channel_ignored (PushJoin "other" true) "other" connectedClient).
  - reflexivity.
  - reflexivity.
  - reflexivity.
Defined.

(** X22: [handleServerPublication] never creates or removes a server-side
    subscription: it rewrites the offset of the entry of its channel, when
    there is one, keeps its epoch and recoverable flag, and leaves every
    other entry, the Subscriptions, the registry, the status and the
    identifier alone. *)
Theorem handleServerPublication_alter (channel : string) (pub : Publication) (c : Client) :
  let c' := (handleServerPublication channel pub c).1 in
  serverSubs c'
  = alter (fun ss => mkServerSub (pub_Offset pub) (ss_Epoch ss) (ss_Recoverable ss))
      channel (serverSubs c) /\
  dom (serverSubs c') = dom (serverSubs c) /\
  subs c' = subs c /\ requests c' = requests c /\ status c' = status c /\
  id c' = id c.
Proof.
  intros c'.
  assert (H : serverSubs c'
              = alter (fun ss => mkServerSub (pub_Offset pub) (ss_Epoch ss)
                                   (ss_Recoverable ss))
                  channel (serverSubs c)).
  { subst c'. unfold handleServerPublication.
    destruct (serverSubs c !! channel) as [ss|] eqn:E; cbn;
      apply map_eq; intros ch; destruct (decide (ch = channel)) as [->|Hne].
    - by rewrite lookup_insert_eq, lookup_alter_eq, E.
    - by rewrite lookup_insert_ne, lookup_alter_ne.
    - by rewrite lookup_alter_eq, E.
    - by rewrite lookup_alter_ne. }
  split; [done|]. split; [by rewrite H, dom_alter_L|].
  subst c'. unfold handleServerPublication.
  by destruct (serverSubs c !! channel).
Qed.

(** ** The reader *)

Lemma readOnce_frame_err (reply : Reply) (push : option Push) (c : Client) :
  (readOnce (ReadReply reply push) c).2 = None.
Proof.
  unfold readOnce. destruct (handle reply push c) as [[c1 effs] [e|]]; done.
Qed.

(** X23: [readOnce] returns an error only when the read itself fails: a
    frame that was read never stops the reader, and always signals
    activity to the ping loop.  A push frame that does not decode reaches
    the error handler twice, once in [handle] and once in [readOnce]. *)
Theorem readOnce_frame_never_stops (reply : Reply) (push : option Push) (c : Client) :
  (readOnce (ReadReply reply push) c).2 = None /\
  (readOnce (ReadReply reply push) c).1.2 = true /\
  (reply_ID reply = 0 -> push = None ->
   readOnce (ReadReply reply push) c
   = (c, handleError ErrDecode c ++ handleError ErrDecode c, true, None)).
Proof.
  split; [apply readOnce_frame_err|split].
  - unfold readOnce. destruct (handle reply push c) as [[c1 effs] [e|]]; done.
  - intros Hid ->. unfold readOnce, handle. rewrite Hid. cbn. done.
Qed.

Lemma reader_frames (frames rest : list readResult) (c : Client) :
  Forall isFrame frames ->
  reader (frames ++ rest) c
  = let '(c1, effs, _) := reader frames c in
    let '(c2, effs', ended) := reader rest c1 in
    (c2, effs ++ effs', ended).
Proof.
  revert c. induction frames as [|r frames IH]; intros c Hf.
  - cbn. by destruct (reader rest c) as [[c2 effs'] ended].
  - inversion Hf as [|? ? Hr Hfs]; subst. destruct r as [d e|reply push]; [done|].
    cbn [app reader].
    pose proof (readOnce_frame_err reply push c) as Hn.
    destruct (readOnce (ReadReply reply push) c) as [[[c1 effs1] dp] err]. cbn in Hn. subst err.
    rewrite IH by done.
    destruct (reader frames c1) as [[c2 effs2] e2].
    destruct (reader rest c2) as [[c3 effs3] e3]. by rewrite app_assoc.
Qed.

(** X24: the reader handles the frames in the order read and ends at the
    first read error: it hands the advice of that error to a
    [handleDisconnect] it starts, and whatever the transport would deliver
    afterwards is never handled.  Without a read error it does not end. *)
Theorem reader_stops_at_error (frames rest : list readResult) (d : option disconnect)
    (e : error) (c : Client) :
  Forall isFrame frames ->
  reader (frames ++ ReadError d e :: rest) c
  = ((reader frames c).1.1,
     (reader frames c).1.2 ++ [Go (GoHandleDisconnect d)], true) /\
  (reader frames c).2 = false.
Proof.
  intros Hf. split.
  - rewrite reader_frames by done.
    destruct (reader frames c) as [[c1 effs] ended]. cbn. done.
  - clear rest d e. revert c. induction frames as [|r frames IH]; intros c; [done|].
    inversion Hf as [|? ? Hr Hfs]; subst. destruct r as [d e|reply push]; [done|].
    cbn [reader].
    pose proof (readOnce_frame_err reply push c) as Hn.
    destruct (readOnce (ReadReply reply push) c) as [[[c1 effs1] dp] err]. cbn in Hn. subst err.
    specialize (IH Hfs c1). by destruct (reader frames c1) as [[c2 effs2] e2].
Qed.

Lemma reader_stops_at_error_witness :
  reader [ReadReply publishReply None; ReadError None EOF; ReadReply publishReply None]
    publishingClient
  = ((removeRequest 2 publishingClient),
     [Invoke 2 CbPublish publishReply None; Go (GoHandleDisconnect None)], true).
Proof.
  destruct (reader_stops_at_error [ReadReply publishReply None]
              [ReadReply publishReply None] None EOF publishingClient) as [H _].
  - repeat constructor.
  - cbn [app] in H. rewrite H. reflexivity.
Defined.

(** ** Subscriptions are never removed *)

Lemma handleDisconnect_subs (d : option disconnect) (c : Client) :
  subs_step c (handleDisconnect d c).1.
Proof.
  unfold handleDisconnect. case_bool_decide; [by left|].
  right; left. exists (Reconnect (default (mkDisconnect "connection closed" true) d)).
  unfold disconnectCalls, disconnectLocked. cbn -[setRecover].
  destruct (Reconnect _); cbn -[setRecover]; apply setRecover_snapshot.
Qed.

Lemma Disconnect_subs (c : Client) : subs_step c (Disconnect c).1.1.
Proof.
  unfold Disconnect, disconnect_.
  pose proof (handleDisconnect_subs (Some (mkDisconnect "clean disconnect" false))
                (set_reconnect false c)) as H.
  by destruct (handleDisconnect _ _).
Qed.

Lemma Close_subs (c : Client) : subs_step c (Close c).1.1.
Proof.
  unfold Close. pose proof (Disconnect_subs c) as H.
  destruct (Disconnect c) as [[c1 effs] err]. cbn in H.
  case_bool_decide; [done|]. by destruct (closeCh c1).
Qed.

Lemma perform_subs_step (enc : Params -> error + Raw) (k : call) (c : Client) :
  subs_step c (perform enc k c).
Proof.
  destruct k as [o| | | | |]; [destruct o|..]; cbn [perform exec];
    try apply handleDisconnect_subs; try apply Disconnect_subs; try apply Close_subs.
  all: try (left; unfold_calls; split_ops; done).
  unfold NewSubscription. destruct (subs c !! channel) eqn:E; [by left|].
  right; right. by exists channel.
Qed.

Lemma subs_step_lookup (c c' : Client) (ch : string) (s : Subscription) :
  subs_step c c' -> subs c !! ch = Some s ->
  exists s', subs c' !! ch = Some s' /\ sameSubscription s s'.
Proof.
  intros [H|[[r H]|(ch' & Hn & H)]] Hs; rewrite H.
  - by exists s.
  - exists (set_sub_recover r s). by rewrite lookup_fmap, Hs.
  - exists s. split; [|done]. rewrite lookup_insert_ne; [done|]. congruence.
Qed.

(** X25: nothing in client.go removes a Subscription from the map of the
    client.  Once a channel has a Subscription, it still has one after any
    history of calls (unsubscribe, disconnect and close included), the
    same up to its recover flag, and [NewSubscription] for that channel
    keeps failing with ErrDuplicateSubscription. *)
Theorem subscriptions_never_removed (enc : Params -> error + Raw) (ks : list call)
    (c : Client) (channel : string) (s : Subscription) :
  subs c !! channel = Some s ->
  (exists s', subs (performAll enc ks c) !! channel = Some s' /\ sameSubscription s s') /\
  NewSubscription channel (performAll enc ks c)
  = (performAll enc ks c, inl ErrDuplicateSubscription).
Proof.
  intros Hs.
  assert (H : exists s', subs (performAll enc ks c) !! channel = Some s'
                         /\ sameSubscription s s').
  { revert c s Hs. induction ks as [|k ks IH]; intros c s Hs; [by exists s|].
    cbn. destruct (subs_step_lookup c (perform enc k c) channel s
                     (perform_subs_step enc k c) Hs) as (s1 & H1 & R1).
    destruct (IH _ _ H1) as (s2 & H2 & R2). exists s2. split; [done|].
    unfold sameSubscription in *. intuition congruence. }
  split; [done|]. destruct H as (s' & H' & _). unfold NewSubscription. by rewrite H'.
Qed.

Lemma subscriptions_never_removed_witness :
  (NewSubscription "news"
     (performAll nullEncoder
        [CallUnsubscribe (inr []) true "news"; CallOp OpDisconnect; CallOp OpClose]
        (NewSubscription "news" connectedClient).1)).2
  = inl ErrDuplicateSubscription.
Proof.
  destruct (subscriptions_never_removed nullEncoder
              [CallUnsubscribe (inr []) true "news"; CallOp OpDisconnect; CallOp OpClose]
              (NewSubscription "news" connectedClient).1 "news" (newSubscription "news"))
    as [_ H].
  - reflexivity.
  - rewrite H. reflexivity.
Defined.

(** ** Private channels *)

Lemma prefix_app (p s : string) : String.prefix p (p +:+ s) = true.
Proof.
  induction p as [|a p IH]; [by destruct s|].
  simpl. destruct (Ascii.ascii_dec a a); [exact IH|done].
Qed.

(** X26: [privateSign] treats every channel whose name extends the
    configured prefix as private: the result is what the handler returns,
    token or error, and an error when no handler is registered.  With an
    empty prefix this is every channel, so that without a handler no
    channel at all can be signed. *)
Theorem privateSign_private (privateChannelPrefix rest : string)
    (onPrivateSub : option (error + string)) :
  privateSign privateChannelPrefix onPrivateSub (privateChannelPrefix +:+ rest)
  = match onPrivateSub with
    | Some r => r
    | None =>
        inl (ErrHandler
               "PrivateSubHandler must be set to handle private channel subscriptions")
    end /\
  privateSign EmptyString None rest
  = inl (ErrHandler "PrivateSubHandler must be set to handle private channel subscriptions").
Proof.
  split.
  - unfold privateSign. rewrite prefix_app. by destruct onPrivateSub as [[e|ps]|].
  - unfold privateSign. by destruct rest.
Qed.
